(** * Base table: pagination, row slicing, layout mode and window listeners

    A shallow embedding of [src/table/base-table/index.tsx]: the computed
    properties of the component ([current], [pageSize], [dataSource],
    [isEmpty], [hasFixedColumns], [tableHeight], [fixedHeader]), its
    life-cycle hooks ([mounted], [unmounted]) and the methods
    [checkScrollableToLeftOrRight], [addWindowResizeEventListener] and the
    pagination handlers built by [renderPagination]. *)

From stdpp Require Import gmap strings list pretty.
From Stdlib Require Import Ascii.

Set Warnings "-register-all".

Local Open Scope Z_scope.

(** ** The fragment of JavaScript the component relies on *)

Module Js.

(** Numbers.  Page indices, page sizes, array lengths and pixel heights are
    integral, so a number is an integer or [NaN]; [NaN] is what arithmetic
    on [undefined] and a failed [parseInt] produce. *)
Inductive number : Type :=
| Num (z : Z)
| NaN.

(** A value that is a number or [undefined] ([x?: number]). *)
Abbreviation optnum := (option number).

(** [ToBoolean] on numbers: [0] and [NaN] are falsy. *)
Definition truthy (n : number) : bool :=
  match n with
  | Num z => negb (z =? 0)
  | NaN => false
  end.

(** [ToBoolean] on [number | undefined]. *)
Definition ToBoolean (v : optnum) : bool :=
  match v with
  | Some n => truthy n
  | None => false
  end.

(** [ToNumber] on [number | undefined]: [undefined] becomes [NaN]. *)
Definition ToNumber (v : optnum) : number :=
  match v with
  | Some n => n
  | None => NaN
  end.

(** [a || b]: the left operand when it is truthy, the right one otherwise
    (whatever the right one is). *)
Definition or (a b : optnum) : optnum :=
  if ToBoolean a then a else b.

(** [a - b] and [a * b]. *)
Definition sub (a b : number) : number :=
  match a, b with
  | Num x, Num y => Num (x - y)
  | _, _ => NaN
  end.

Definition mul (a b : number) : number :=
  match a, b with
  | Num x, Num y => Num (x * y)
  | _, _ => NaN
  end.

(** [a > b]: false as soon as one side is [NaN]. *)
Definition gt (a b : number) : bool :=
  match a, b with
  | Num x, Num y => y <? x
  | _, _ => false
  end.

(** [ToIntegerOrInfinity]: [NaN] becomes [0]. *)
Definition ToIntegerOrInfinity (n : number) : Z :=
  match n with
  | Num z => z
  | NaN => 0
  end.

(** A relative index of [Array.prototype.slice] resolved against the
    length: negative indices count from the end, and the result is clamped
    to [0 .. len]. *)
Definition relative_index (len i : Z) : Z :=
  if i <? 0 then Z.max (len + i) 0 else Z.min i len.

(** [xs.slice(start, end)].  An [undefined] start is [0], an [undefined]
    end is the length; the result is a fresh array holding the elements at
    indices [k .. final - 1]. *)
Definition slice {A : Type} (xs : list A) (start end_ : optnum) : list A :=
  let len := Z.of_nat (length xs) in
  let k := relative_index len (ToIntegerOrInfinity (ToNumber start)) in
  let final :=
    match end_ with
    | None => len
    | Some e => relative_index len (ToIntegerOrInfinity e)
    end in
  firstn (Z.to_nat (final - k)) (skipn (Z.to_nat k) xs).

(** Every object is truthy, an empty array included. *)
Definition array_truthy {A : Type} (xs : list A) : bool := true.

(** [ToBoolean] on [boolean | undefined]. *)
Definition bool_truthy (v : option bool) : bool :=
  match v with
  | Some b => b
  | None => false
  end.

(** ** [parseInt(s, 10)] *)

(** White space that [parseInt] strips in front (the code units below 256
    of [StrWhiteSpaceChar]: TAB, LF, VT, FF, CR, SP, NBSP). *)
Definition is_white_space (c : ascii) : bool :=
  let n := nat_of_ascii c in
  ((9 <=? n) && (n <=? 13) || (n =? 32) || (n =? 160))%nat.

Definition digit_of (c : ascii) : option Z :=
  let n := Z.of_nat (nat_of_ascii c) in
  if (48 <=? n) && (n <=? 57) then Some (n - 48) else None.

Fixpoint trim_start (s : string) : string :=
  match s with
  | String c r => if is_white_space c then trim_start r else s
  | EmptyString => s
  end.

(** The value of the longest prefix of decimal digits, [None] when the
    prefix is empty. *)
Fixpoint digits (s : string) (acc : option Z) : option Z :=
  match s with
  | String c r =>
      match digit_of c with
      | Some d => digits r (Some (10 * default 0 acc + d))
      | None => acc
      end
  | EmptyString => acc
  end.

(** [parseInt(s, 10)]: leading white space is dropped, then an optional
    sign, then the longest run of decimal digits is read; [NaN] when there
    is no digit.  The value is exact (a double rounds beyond 2^53), and
    [-0] is [0]. *)
Definition parseInt10 (s : string) : number :=
  let s := trim_start s in
  let '(sign, s) :=
    match s with
    | String "-"%char r => (-1, r)
    | String "+"%char r => (1, r)
    | _ => (1, s)
    end in
  match digits s None with
  | Some n => Num (sign * n)
  | None => NaN
  end.

End Js.

Export Js(number, Num, NaN).

(** ** Data model *)

(** [fixed?: 'left' | 'right'] of a column. *)
Inductive FixedSide : Type :=
| FixedLeft
| FixedRight.

(** A column of the (possibly nested) column specification.  A column
    without [children], or with an empty [children] array, is a leaf. *)
Inductive BaseTableCol : Type :=
  Col { colKey : string; fixed : option FixedSide; children : list BaseTableCol }.

(** Modelled from the spec: [flatColumns] of [util/props-util], which is not
    among the sources.  It descends into the columns that have child
    columns and emits the leaf columns only, in left-to-right document
    order. *)
Fixpoint flatColumn (column : BaseTableCol) : list BaseTableCol :=
  match children column with
  | [] => [column]
  | cs => (fix go (l : list BaseTableCol) : list BaseTableCol :=
             match l with
             | [] => []
             | c :: r => flatColumn c ++ go r
             end) cs
  end.

Definition flatColumns (columns : list BaseTableCol) : list BaseTableCol :=
  flat_map flatColumn columns.

(** [PageInfo] of [pagination/type], the payload of the pagination widget's
    change events. *)
Module PageInfo.
Record t : Type := Make { current : number; previous : number; pageSize : number }.
End PageInfo.

(** A callback supplied by the host, known by its handle only. *)
Definition callback : Type := nat.

(** The [pagination] prop: the fields of [TdPaginationProps] this component
    reads, each of them optional. *)
Module TdPaginationProps.
Record t : Type := Make {
  current : Js.optnum;
  defaultCurrent : Js.optnum;
  pageSize : Js.optnum;
  defaultPageSize : Js.optnum;
  onChange : option callback;
  onCurrentChange : option callback;
  onPageSizeChange : option callback;
}.
End TdPaginationProps.

(** The [height] prop: [string | number], or absent. *)
Inductive Height : Type :=
| HeightAbsent
| HeightNumber (n : number)
| HeightString (s : string).

(** What the component reads of the element behind a template ref. *)
Record HTMLElement : Type := {
  scrollLeft : Z;
  scrollWidth : Z;
  clientWidth : Z;
}.

(** The decision [render] takes on [fixedHeader]: one table inside the
    scrollable content block, or a header block and a body block. *)
Inductive LayoutMode : Type :=
| SINGLE_BLOCK
| FIXED_HEADER_SPLIT.

(** A function object: a method of the instance (bound once, so reading
    [this.m] twice gives the same object), or a function created while the
    program runs, known by its allocation number. *)
Inductive fn_ref : Type :=
| Method (name : string)
| Closure (id : nat).

(** What a function created at run time does. *)
Inductive closure : Type :=
| CheckLater                 (* () => { this.checkScrollableToLeftOrRight(); } *)
| Debounced (fn : fn_ref).   (* the wrapper returned by debounce(fn) *)

Inductive exn : Type :=
| TypeError.

Global Instance fn_ref_eq_dec : EqDecision fn_ref.
Proof. solve_decision. Defined.

Section BaseTable.

Context {DataType : Type}.

(** The component instance ([this]): props, the reactive [data()] fields
    and the template refs. *)
Record BaseTable : Type := {
  (* props *)
  data : list DataType;
  columns : list BaseTableCol;
  pagination : option TdPaginationProps.t;
  loading : option bool;
  height : Height;
  (* data() *)
  scrollableToLeft : bool;
  scrollableToRight : bool;
  scrollBarWidth : Z;
  defaultCurrent : number;
  defaultPageSize : number;
  (* $refs *)
  refs : gmap string HTMLElement;
}.

(** ** Computed properties *)

Definition hasPagination (t : BaseTable) : bool :=
  match pagination t with
  | Some _ => true
  | None => false
  end.

Definition current (t : BaseTable) : Js.optnum :=
  Js.or (Js.or (pagination t ≫= TdPaginationProps.current) (Some (defaultCurrent t)))
        (pagination t ≫= TdPaginationProps.defaultCurrent).

Definition pageSize (t : BaseTable) : Js.optnum :=
  Js.or (Js.or (pagination t ≫= TdPaginationProps.pageSize) (Some (defaultPageSize t)))
        (pagination t ≫= TdPaginationProps.defaultPageSize).

Definition dataSource (t : BaseTable) : list DataType :=
  if negb (hasPagination t) then Js.slice (data t) (Some (Num 0)) None
  else
    let current := Js.ToNumber (current t) in
    let pageSize := Js.ToNumber (pageSize t) in
    if Js.gt (Num (Z.of_nat (length (data t)))) pageSize
    then Js.slice (data t)
           (Some (Js.mul (Js.sub current (Num 1)) pageSize))
           (Some (Js.mul current pageSize))
    else data t.

Definition flattedColumns (t : BaseTable) : list BaseTableCol :=
  flatColumns (columns t).

Definition isEmpty (t : BaseTable) : bool :=
  (negb (Js.array_truthy (dataSource t)) || (length (dataSource t) =? 0)%nat)
  && negb (Js.bool_truthy (loading t)).

Definition is_fixed (item : BaseTableCol) : bool :=
  match fixed item with
  | Some FixedRight => true
  | Some FixedLeft => true
  | None => false
  end.

Definition hasFixedColumns (t : BaseTable) : bool :=
  existsb is_fixed (columns t).

Definition isLoading (t : BaseTable) : bool :=
  Js.bool_truthy (loading t).

Definition tableHeight (t : BaseTable) : number :=
  match height t with
  | HeightString s => Js.parseInt10 s
  | HeightNumber n => if Js.truthy n then n else Num 0
  | HeightAbsent => Num 0
  end.

Definition fixedHeader (t : BaseTable) : bool :=
  Js.gt (tableHeight t) (Num 0).

(** The branch of [render] on [fixedHeader]: [renderTableWithFixedHeader]
    when it holds, one table in the content block otherwise. *)
Definition layoutMode (t : BaseTable) : LayoutMode :=
  if fixedHeader t then FIXED_HEADER_SPLIT else SINGLE_BLOCK.

(** ** The world the methods run in *)

(** What the component does to its host, in the order it does it. *)
Inductive effect : Type :=
| Emit (event : string) (pageInfo : PageInfo.t) (rows : list DataType)
| CallOnChange (cb : callback) (pageInfo : PageInfo.t)
| CallOnCurrentChange (cb : callback) (current : number) (pageInfo : PageInfo.t)
| CallOnPageSizeChange (cb : callback) (pageSize : number) (pageInfo : PageInfo.t)
| AddEventListener (type : string) (listener : fn_ref)
| RemoveEventListener (type : string) (listener : fn_ref)
| SetTimeout (handler : fn_ref) (delay : Z).

(** The instance together with what it shares with the page: the event
    listener list of [window], the function objects created so far, the
    pending timers, the geometry the layout engine reports for the
    scrollbar probe, and the trace of effects. *)
Record World : Type := {
  this : BaseTable;
  listeners : list (string * fn_ref);
  functions : gmap nat closure;
  next_fn : nat;
  timers : list (fn_ref * Z);
  probe_offsetWidth : Z;
  probe_clientWidth : Z;
  trace : list effect;
}.

(** A method either returns or throws; either way it leaves a world. *)
Inductive Result (X : Type) : Type :=
| Ok (x : X) (w : World)
| Throw (e : exn) (w : World).

Definition M (X : Type) : Type := World -> Result X.

Definition ret {X : Type} (x : X) : M X := fun w => Ok X x w.

Definition bind {X Y : Type} (m : M X) (k : X -> M Y) : M Y :=
  fun w =>
    match m w with
    | Ok _ x w' => k x w'
    | Throw _ e w' => Throw Y e w'
    end.

Definition throw {X : Type} (e : exn) : M X := fun w => Throw X e w.

Definition get_this : M BaseTable := fun w => Ok _ (this w) w.

Definition get_world : M World := fun w => Ok _ w w.

Definition final_world {X : Type} (r : Result X) : World :=
  match r with
  | Ok _ _ w => w
  | Throw _ _ w => w
  end.

Definition returns {X : Type} (r : Result X) : bool :=
  match r with
  | Ok _ _ _ => true
  | Throw _ _ _ => false
  end.

End BaseTable.

Arguments BaseTable : clear implicits.
Arguments effect : clear implicits.
Arguments World : clear implicits.
Arguments Result : clear implicits.
Arguments M : clear implicits.
Arguments Ok {DataType X} x w.
Arguments Throw {DataType X} e w.

Declare Scope js_scope.
Delimit Scope js_scope with js.
Notation "x <- m ;; k" := (bind m (fun x => k))
  (at level 20, m at level 99, k at level 200, only parsing) : js_scope.
Notation "m ;; k" := (bind m (fun _ => k))
  (at level 100, k at level 200, only parsing, right associativity) : js_scope.

(** ** Methods and life-cycle hooks *)

Section Methods.

Context {DataType : Type}.

Local Open Scope js_scope.

Local Abbreviation M := (M DataType).
Local Abbreviation BaseTable := (BaseTable DataType).
Local Abbreviation World := (World DataType).

Definition set_scrollableToLeft (b : bool) (t : BaseTable) : BaseTable :=
  {| data := data t; columns := columns t; pagination := pagination t;
     loading := loading t; height := height t;
     scrollableToLeft := b; scrollableToRight := scrollableToRight t;
     scrollBarWidth := scrollBarWidth t; defaultCurrent := defaultCurrent t;
     defaultPageSize := defaultPageSize t; refs := refs t |}.

Definition set_scrollableToRight (b : bool) (t : BaseTable) : BaseTable :=
  {| data := data t; columns := columns t; pagination := pagination t;
     loading := loading t; height := height t;
     scrollableToLeft := scrollableToLeft t; scrollableToRight := b;
     scrollBarWidth := scrollBarWidth t; defaultCurrent := defaultCurrent t;
     defaultPageSize := defaultPageSize t; refs := refs t |}.

Definition set_scrollBarWidth (z : Z) (t : BaseTable) : BaseTable :=
  {| data := data t; columns := columns t; pagination := pagination t;
     loading := loading t; height := height t;
     scrollableToLeft := scrollableToLeft t; scrollableToRight := scrollableToRight t;
     scrollBarWidth := z; defaultCurrent := defaultCurrent t;
     defaultPageSize := defaultPageSize t; refs := refs t |}.

Definition set_defaultCurrent (n : number) (t : BaseTable) : BaseTable :=
  {| data := data t; columns := columns t; pagination := pagination t;
     loading := loading t; height := height t;
     scrollableToLeft := scrollableToLeft t; scrollableToRight := scrollableToRight t;
     scrollBarWidth := scrollBarWidth t; defaultCurrent := n;
     defaultPageSize := defaultPageSize t; refs := refs t |}.

Definition set_defaultPageSize (n : number) (t : BaseTable) : BaseTable :=
  {| data := data t; columns := columns t; pagination := pagination t;
     loading := loading t; height := height t;
     scrollableToLeft := scrollableToLeft t; scrollableToRight := scrollableToRight t;
     scrollBarWidth := scrollBarWidth t; defaultCurrent := defaultCurrent t;
     defaultPageSize := n; refs := refs t |}.

(** [this.field = value]. *)
Definition assign (f : BaseTable -> BaseTable) : M unit :=
  fun w =>
    Ok tt {| this := f (this w); listeners := listeners w; functions := functions w;
             next_fn := next_fn w; timers := timers w;
             probe_offsetWidth := probe_offsetWidth w;
             probe_clientWidth := probe_clientWidth w; trace := trace w |}.

Definition log (e : effect DataType) : M unit :=
  fun w =>
    Ok tt {| this := this w; listeners := listeners w; functions := functions w;
             next_fn := next_fn w; timers := timers w;
             probe_offsetWidth := probe_offsetWidth w;
             probe_clientWidth := probe_clientWidth w; trace := trace w ++ [e] |}.

Definition set_listeners (ls : list (string * fn_ref)) : M unit :=
  fun w =>
    Ok tt {| this := this w; listeners := ls; functions := functions w;
             next_fn := next_fn w; timers := timers w;
             probe_offsetWidth := probe_offsetWidth w;
             probe_clientWidth := probe_clientWidth w; trace := trace w |}.

(** Evaluating a function expression: a new function object. *)
Definition new_function (c : closure) : M fn_ref :=
  fun w =>
    Ok (Closure (next_fn w))
       {| this := this w; listeners := listeners w;
          functions := <[next_fn w := c]> (functions w);
          next_fn := S (next_fn w); timers := timers w;
          probe_offsetWidth := probe_offsetWidth w;
          probe_clientWidth := probe_clientWidth w; trace := trace w |}.

(** [setTimeout(handler, delay)]. *)
Definition setTimeout (handler : fn_ref) (delay : Z) : M unit :=
  fun w =>
    Ok tt {| this := this w; listeners := listeners w; functions := functions w;
             next_fn := next_fn w; timers := timers w ++ [(handler, delay)];
             probe_offsetWidth := probe_offsetWidth w;
             probe_clientWidth := probe_clientWidth w;
             trace := trace w ++ [SetTimeout handler delay] |}.

(** [window.addEventListener(type, listener)]: nothing is added when the
    same listener is already registered for the type. *)
Definition addEventListener (type : string) (listener : fn_ref) : M unit :=
  log (AddEventListener type listener);;
  w <- get_world;;
  if decide ((type, listener) ∈ listeners w) then ret tt
  else set_listeners (listeners w ++ [(type, listener)]).

Fixpoint remove_listener (entry : string * fn_ref) (ls : list (string * fn_ref))
  : list (string * fn_ref) :=
  match ls with
  | [] => []
  | e :: r => if decide (e = entry) then r else e :: remove_listener entry r
  end.

(** [window.removeEventListener(type, listener)]: removes the entry with
    this type and this very function object, if there is one. *)
Definition removeEventListener (type : string) (listener : fn_ref) : M unit :=
  log (RemoveEventListener type listener);;
  w <- get_world;;
  set_listeners (remove_listener (type, listener) (listeners w)).

(** Modelled from the spec: [debounce] of [util/common], which is not among
    the sources.  The debounced check is a wrapper around the function it
    is given, holding the pending timer of its own: every call of
    [debounce] builds a new wrapper. *)
Definition debounce (fn : fn_ref) : M fn_ref :=
  new_function (Debounced fn).

(** Modelled from the spec: [emitEvent] of [utils/event], which is not among
    the sources.  It hands the notification, with its payload, to the
    host. *)
Definition emitEvent (event : string) (pageInfo : PageInfo.t) (rows : list DataType)
  : M unit :=
  log (Emit event pageInfo rows).

Definition checkScrollableToLeftOrRight : M unit :=
  t <- get_this;;
  match refs t !! (if fixedHeader t then "scrollBody" else "tableContent") with
  | None => throw TypeError
  | Some scrollContainer =>
      let scrollLeft := scrollLeft scrollContainer in
      let scrollWidth := scrollWidth scrollContainer in
      let clientWidth := clientWidth scrollContainer in
      assign (set_scrollableToLeft (0 <? scrollLeft));;
      assign (set_scrollableToRight (scrollLeft + clientWidth <? scrollWidth))
  end.

Definition addWindowResizeEventListener : M unit :=
  listener <- debounce (Method "checkScrollableToLeftOrRight");;
  addEventListener "resize" listener.

Definition mounted : M unit :=
  t <- get_this;;
  (if hasFixedColumns t then
     handler <- new_function CheckLater;;
     setTimeout handler 0;;
     addWindowResizeEventListener
   else ret tt);;
  w <- get_world;;
  assign (set_scrollBarWidth (probe_offsetWidth w - probe_clientWidth w)).

Definition unmounted : M unit :=
  listener <- debounce (Method "checkScrollableToLeftOrRight");;
  removeEventListener "resize" listener.

(** The handlers [renderPagination] passes to the pagination widget;
    [paginationProps] is [this.pagination] as read when rendering. *)
Definition renderPagination_onChange (paginationProps : TdPaginationProps.t)
    (pageInfo : PageInfo.t) : M unit :=
  match TdPaginationProps.onChange paginationProps with
  | Some cb => log (CallOnChange cb pageInfo)
  | None => ret tt
  end.

Definition renderPagination_onCurrentChange (paginationProps : TdPaginationProps.t)
    (current : number) (pageInfo : PageInfo.t) : M unit :=
  t <- get_this;;
  emitEvent "page-change" pageInfo (dataSource t);;
  assign (set_defaultCurrent current);;
  match TdPaginationProps.onCurrentChange paginationProps with
  | Some cb => log (CallOnCurrentChange cb current pageInfo)
  | None => ret tt
  end.

Definition renderPagination_onPageSizeChange (paginationProps : TdPaginationProps.t)
    (pageSize : number) (pageInfo : PageInfo.t) : M unit :=
  t <- get_this;;
  emitEvent "page-change" pageInfo (dataSource t);;
  assign (set_defaultPageSize pageSize);;
  match TdPaginationProps.onPageSizeChange paginationProps with
  | Some cb => log (CallOnPageSizeChange cb pageSize pageInfo)
  | None => ret tt
  end.

End Methods.

(** ** Instances *)

(** A freshly created instance: the props as given, the reactive fields as
    [data()] returns them, and no ref yet (refs are filled when the
    template has been rendered). *)
Definition create {DataType : Type} (data : list DataType) (columns : list BaseTableCol)
    (pagination : option TdPaginationProps.t) (loading : option bool) (height : Height)
  : BaseTable DataType :=
  {| data := data; columns := columns; pagination := pagination;
     loading := loading; height := height;
     scrollableToLeft := false; scrollableToRight := false; scrollBarWidth := 0;
     defaultCurrent := Num 0; defaultPageSize := Num 0; refs := ∅ |}.

(** A page with nothing registered on [window] yet, where the scrollbar
    probe (99 pixels wide) keeps 84 pixels for its content. *)
Definition page_of {DataType : Type} (t : BaseTable DataType) : World DataType :=
  {| this := t; listeners := []; functions := ∅; next_fn := 0; timers := [];
     probe_offsetWidth := 99; probe_clientWidth := 84; trace := [] |}.

(** A pagination prop with the given page, page size and their
    uncontrolled defaults, and no callback. *)
Definition paging (current defaultCurrent pageSize defaultPageSize : Js.optnum)
  : TdPaginationProps.t :=
  {| TdPaginationProps.current := current;
     TdPaginationProps.defaultCurrent := defaultCurrent;
     TdPaginationProps.pageSize := pageSize;
     TdPaginationProps.defaultPageSize := defaultPageSize;
     TdPaginationProps.onChange := None;
     TdPaginationProps.onCurrentChange := None;
     TdPaginationProps.onPageSizeChange := None |}.

(** The instance once the template has been rendered with the element
    [el] behind the ref [name]. *)
Definition rendered {DataType : Type} (name : string) (el : HTMLElement)
    (t : BaseTable DataType) : BaseTable DataType :=
  {| data := data t; columns := columns t; pagination := pagination t;
     loading := loading t; height := height t;
     scrollableToLeft := scrollableToLeft t; scrollableToRight := scrollableToRight t;
     scrollBarWidth := scrollBarWidth t; defaultCurrent := defaultCurrent t;
     defaultPageSize := defaultPageSize t; refs := <[name := el]> (refs t) |}.

Definition seven_rows : list Z := [10; 20; 30; 40; 50; 60; 70].

(** The priority order of the reconciler, as a relation between the three
    sources and the result: a usable (truthy) controlled value is the
    result; failing that, a usable internal default; failing both, the
    uncontrolled default as the caller gave it. *)
Definition follows_priority (controlled : Js.optnum) (internal : number)
    (uncontrolled result : Js.optnum) : Prop :=
  (Js.ToBoolean controlled = true -> result = controlled)
  /\ (Js.ToBoolean controlled = false -> Js.truthy internal = true ->
      result = Some internal)
  /\ (Js.ToBoolean controlled = false -> Js.truthy internal = false ->
      result = uncontrolled).

(** The half-open window [D[lo : hi]] the row slicer is specified with: the
    elements of [D] at the indices [lo <= i < hi] that exist. *)
Definition window {A : Type} (D : list A) (lo hi : Z) : list A :=
  take (Z.to_nat (hi - lo)) (drop (Z.to_nat lo) D).

(** ** Scroll handlers *)

(** [SCROLL_DIRECTION] of [util/common]. *)
Module SCROLL_DIRECTION.
Inductive t : Type :=
| X
| Y
| UNKNOWN.
End SCROLL_DIRECTION.

(** What the handlers read of a scroll event: the offsets of its target. *)
Record ScrollEvent : Type := {
  target_scrollLeft : Z;
  target_scrollTop : Z;
}.

Section ScrollHandlers.

Context {DataType : Type}.

Local Open Scope js_scope.

Local Abbreviation M := (M DataType).
Local Abbreviation BaseTable := (BaseTable DataType).

(** [handleScroll(e)].  [getScrollDirection] of [util/common] is not among
    the sources and keeps the previous offsets in a state of its own: its
    answer for this event is the argument [direction].  The result is the
    notification handed to [emitEvent], if there is one: its name, and the
    event it carries. *)
Definition handleScroll (e : ScrollEvent) (direction : SCROLL_DIRECTION.t)
  : M (option (string * ScrollEvent)) :=
  checkScrollableToLeftOrRight;;
  match direction with
  | SCROLL_DIRECTION.UNKNOWN => ret None
  | SCROLL_DIRECTION.X => ret (Some ("scroll-x", e))
  | SCROLL_DIRECTION.Y => ret (Some ("scroll-y", e))
  end.

(** The scroll position an element takes when [scrollLeft] is assigned:
    the browser keeps it inside the range the element can scroll. *)
Definition scroll_to (z : Z) (el : HTMLElement) : HTMLElement :=
  {| scrollLeft := Z.max 0 (Z.min z (scrollWidth el - clientWidth el));
     scrollWidth := scrollWidth el;
     clientWidth := clientWidth el |}.

Definition set_ref (name : string) (el : HTMLElement) (t : BaseTable) : BaseTable :=
  {| data := data t; columns := columns t; pagination := pagination t;
     loading := loading t; height := height t;
     scrollableToLeft := scrollableToLeft t; scrollableToRight := scrollableToRight t;
     scrollBarWidth := scrollBarWidth t; defaultCurrent := defaultCurrent t;
     defaultPageSize := defaultPageSize t; refs := <[name := el]> (refs t) |}.

(** The scroll handler [renderTableWithFixedHeader] puts on the body block
    (inside [throttle], whose timing is left out): it copies the target's
    [scrollLeft] to the header block, then runs [handleScroll]. *)
Definition renderTableWithFixedHeader_handleScroll (e : ScrollEvent)
    (direction : SCROLL_DIRECTION.t) : M (option (string * ScrollEvent)) :=
  let scrollLeft := target_scrollLeft e in
  t <- get_this;;
  match refs t !! "scrollHeader" with
  | None => throw TypeError
  | Some scrollHeader =>
      assign (set_ref "scrollHeader" (scroll_to scrollLeft scrollHeader));;
      handleScroll e direction
  end.

(** Mounting and unmounting the component [k] times over. *)
Fixpoint remount (k : nat) : M unit :=
  match k with
  | O => ret tt
  | S k' => mounted;; unmounted;; remount k'
  end.

End ScrollHandlers.

(** ** Class names *)

(** The styling props [commonClass] reads, and [provider.sortOnRowDraggable]
    (of which only the truthiness matters). *)
Module Style.
Record t : Type := Make {
  bordered : bool;
  stripe : bool;
  hover : bool;
  sortOnRowDraggable : bool;
  size : option string;
  verticalAlign : option string;
}.
End Style.

(** [if (c) classes.push(x)]. *)
Definition push_if (c : bool) (x : string) (classes : list string) : list string :=
  if c then classes ++ [x] else classes.

(** [commonClass]; [prefix] is the constant of [config], which is not among
    the sources. *)
Definition commonClass {DataType : Type} (prefix : string) (style : Style.t)
    (t : BaseTable DataType) : list string :=
  let commonClass := ["t-table"] in
  let commonClass := push_if (Style.bordered style) (prefix +:+ "-table--bordered") commonClass in
  let commonClass := push_if (Style.stripe style) (prefix +:+ "-table--striped") commonClass in
  let commonClass := push_if (Style.hover style) (prefix +:+ "-table--hoverable") commonClass in
  let commonClass :=
    push_if (Style.sortOnRowDraggable style) (prefix +:+ "-table__row--draggable") commonClass in
  let commonClass :=
    if decide (Style.size style = Some "small")
    then commonClass ++ [prefix +:+ "-size-s"]
    else if decide (Style.size style = Some "large")
    then commonClass ++ [prefix +:+ "-size-l"]
    else commonClass in
  let commonClass :=
    if decide (Style.verticalAlign style = Some "top")
    then commonClass ++ [prefix +:+ "-table-valign__top"]
    else if decide (Style.verticalAlign style = Some "bottom")
    then commonClass ++ [prefix +:+ "-table-valign__bottom"]
    else commonClass in
  let commonClass :=
    push_if (hasFixedColumns t)
      (prefix +:+ "-table__cell--fixed " +:+ prefix +:+ "-table--has-fixed") commonClass in
  push_if (fixedHeader t) (prefix +:+ "-table__header--fixed") commonClass.

(** Every class name [commonClass] can push, in the order of its pushes. *)
Definition class_names (prefix : string) : list string :=
  ["t-table";
   prefix +:+ "-table--bordered";
   prefix +:+ "-table--striped";
   prefix +:+ "-table--hoverable";
   prefix +:+ "-table__row--draggable";
   prefix +:+ "-size-s";
   prefix +:+ "-size-l";
   prefix +:+ "-table-valign__top";
   prefix +:+ "-table-valign__bottom";
   prefix +:+ "-table__cell--fixed " +:+ prefix +:+ "-table--has-fixed";
   prefix +:+ "-table__header--fixed"].

(** ** Well-formed pages *)

(** Every function object registered on [window] has been created: its
    allocation number is below the next one. *)
Definition listeners_allocated {DataType : Type} (w : World DataType) : Prop :=
  forall (type : string) (id : nat), (type, Closure id) ∈ listeners w -> (id < next_fn w)%nat.

(** The page after a check that found the element [el] behind the ref it
    reads: the two flags set from [el], the rest as before. *)
Definition checked {DataType : Type} (el : HTMLElement) (w : World DataType)
  : World DataType :=
  {| this := set_scrollableToRight (scrollLeft el + clientWidth el <? scrollWidth el)
               (set_scrollableToLeft (0 <? scrollLeft el) (this w));
     listeners := listeners w; functions := functions w; next_fn := next_fn w;
     timers := timers w; probe_offsetWidth := probe_offsetWidth w;
     probe_clientWidth := probe_clientWidth w; trace := trace w |}.

(** * Properties *)

(** Unfolds the monadic plumbing of a method applied to a world. *)
Ltac run_method :=
  unfold emitEvent, debounce, bind, get_this, get_world, new_function, setTimeout,
    log, assign, set_listeners, ret, throw;
  simpl.

(** ** [Array.prototype.slice] *)

Section SliceFacts.

Context {A : Type}.
Implicit Types (xs : list A) (a b : Z).

Lemma relative_index_nonneg len a :
  0 <= a -> Js.relative_index len a = Z.min a len.
Proof.
  intros Ha. unfold Js.relative_index.
  destruct (Z.ltb_spec a 0); [lia | reflexivity].
Qed.


Lemma slice_NaN xs : Js.slice xs (Some NaN) (Some NaN) = [].
Proof.
  unfold Js.slice, Js.relative_index; simpl.
  rewrite Z.min_l by lia. reflexivity.
Qed.

Lemma slice_window xs a b :
  0 <= a <= b -> Js.slice xs (Some (Num a)) (Some (Num b)) = window xs a b.
Proof.
  intros [Ha Hab]. unfold Js.slice, window; simpl.
  rewrite !relative_index_nonneg by lia.
  set (len := Z.of_nat (length xs)).
  destruct (Z.le_gt_cases len a) as [Hout | Hin].
  - rewrite !drop_ge by (subst len; lia). now rewrite !take_nil.
  - rewrite (Z.min_l a len) by lia.
    destruct (Z.le_gt_cases b len) as [Hb | Hb].
    + now rewrite Z.min_l by lia.
    + rewrite Z.min_r by lia.
      rewrite !take_ge; [reflexivity | |]; rewrite length_drop; subst len; lia.
Qed.

Lemma window_length xs a b :
  0 <= a <= b ->
  Z.of_nat (length (window xs a b)) = Z.max 0 (Z.min (b - a) (Z.of_nat (length xs) - a)).
Proof.
  intros [Ha Hab]. unfold window. rewrite length_take, length_drop. lia.
Qed.

Lemma window_lookup xs a b (i : nat) :
  0 <= a <= b ->
  window xs a b !! i =
    if Z.of_nat i <? b - a then xs !! (Z.to_nat a + i)%nat else None.
Proof.
  intros [Ha Hab]. unfold window.
  destruct (Z.ltb_spec (Z.of_nat i) (b - a)).
  - rewrite lookup_take_lt by lia. apply lookup_drop.
  - apply lookup_take_ge. lia.
Qed.

End SliceFacts.

(** ** Pagination state *)

Section Reconciler.

Context {DataType : Type}.
Implicit Types (t : BaseTable DataType) (v : Js.optnum) (n : number).

Lemma or_truthy v1 v2 : Js.ToBoolean v1 = true -> Js.or v1 v2 = v1.
Proof. intros H. unfold Js.or. now rewrite H. Qed.

Lemma or_falsy v1 v2 : Js.ToBoolean v1 = false -> Js.or v1 v2 = v2.
Proof. intros H. unfold Js.or. now rewrite H. Qed.

(** The chain [a || b || c] with a number in the middle. *)
Lemma chain_cases v1 n v3 :
  Js.or (Js.or v1 (Some n)) v3 =
    if Js.ToBoolean v1 then v1
    else if Js.truthy n then Some n
    else v3.
Proof.
  unfold Js.or. destruct (Js.ToBoolean v1) eqn:H1.
  - now rewrite H1.
  - simpl. now destruct (Js.truthy n).
Qed.

Lemma truthy_Num (z : Z) : z <> 0 -> Js.truthy (Num z) = true.
Proof. intros Hz. simpl. now destruct (Z.eqb_spec z 0). Qed.

(** A truthy result is a number other than [0] and [NaN]. *)
Lemma ToBoolean_true v :
  Js.ToBoolean v = true <-> exists z, v = Some (Num z) /\ z <> 0.
Proof.
  split.
  - destruct v as [[z|]|]; simpl; try discriminate.
    intros H. exists z. split; [reflexivity|].
    intros ->. discriminate.
  - intros (z & -> & Hz). now apply truthy_Num.
Qed.

Lemma chain_follows_priority v1 n v3 :
  follows_priority v1 n v3 (Js.or (Js.or v1 (Some n)) v3).
Proof.
  rewrite chain_cases. unfold follows_priority.
  destruct (Js.ToBoolean v1), (Js.truthy n); repeat split; congruence.
Qed.

Lemma chain_zero v1 n v3 :
  Js.or (Js.or v1 (Some n)) v3 = Some (Num 0) <->
  Js.ToBoolean v1 = false /\ Js.truthy n = false /\ v3 = Some (Num 0).
Proof.
  rewrite chain_cases.
  destruct (Js.ToBoolean v1) eqn:H1.
  - split; [|intros (? & _); discriminate].
    intros ->. discriminate.
  - destruct (Js.truthy n) eqn:H2.
    + split; [|intros (_ & ? & _); discriminate].
      intros [= ->]. discriminate.
    + tauto.
Qed.

(** C2: the reconciled page follows the priority controlled current, then
    internally tracked default, then uncontrolled default, and so does the
    reconciled page size; a usable controlled value wins whatever the
    internal default is. *)
Theorem reconciled_by_priority t :
  follows_priority (pagination t ≫= TdPaginationProps.current) (defaultCurrent t)
    (pagination t ≫= TdPaginationProps.defaultCurrent) (current t)
  /\ follows_priority (pagination t ≫= TdPaginationProps.pageSize) (defaultPageSize t)
       (pagination t ≫= TdPaginationProps.defaultPageSize) (pageSize t).
Proof. split; apply chain_follows_priority. Qed.

(** C5, as the code has it: when the controlled value and the internal
    default are absent or falsy the result is the uncontrolled default
    exactly as the caller gave it, whatever it is; so it is [undefined]
    when that default is absent, and the page (or page size) is [0]
    exactly when the caller gave [0] as the uncontrolled default and
    nothing else is usable. *)
Theorem reconciled_zero_only_from_default t :
  (Js.ToBoolean (pagination t ≫= TdPaginationProps.current) = false ->
   Js.truthy (defaultCurrent t) = false ->
   current t = pagination t ≫= TdPaginationProps.defaultCurrent)
  /\ (Js.ToBoolean (pagination t ≫= TdPaginationProps.pageSize) = false ->
      Js.truthy (defaultPageSize t) = false ->
      pageSize t = pagination t ≫= TdPaginationProps.defaultPageSize)
  /\ (Js.ToBoolean (pagination t ≫= TdPaginationProps.current) = false ->
      Js.truthy (defaultCurrent t) = false ->
      pagination t ≫= TdPaginationProps.defaultCurrent = None ->
      current t = None)
  /\ (current t = Some (Num 0) <->
      Js.ToBoolean (pagination t ≫= TdPaginationProps.current) = false
      /\ Js.truthy (defaultCurrent t) = false
      /\ pagination t ≫= TdPaginationProps.defaultCurrent = Some (Num 0))
  /\ (Js.ToBoolean (pagination t ≫= TdPaginationProps.pageSize) = false ->
      Js.truthy (defaultPageSize t) = false ->
      pagination t ≫= TdPaginationProps.defaultPageSize = None ->
      pageSize t = None)
  /\ (pageSize t = Some (Num 0) <->
      Js.ToBoolean (pagination t ≫= TdPaginationProps.pageSize) = false
      /\ Js.truthy (defaultPageSize t) = false
      /\ pagination t ≫= TdPaginationProps.defaultPageSize = Some (Num 0)).
Proof.
  unfold current, pageSize. split; [|split; [|split; [|split; [|split]]]].
  - intros H1 H2. now rewrite chain_cases, H1, H2.
  - intros H1 H2. now rewrite chain_cases, H1, H2.
  - intros H1 H2 H3. rewrite chain_cases, H1, H2. exact H3.
  - apply chain_zero.
  - intros H1 H2 H3. rewrite chain_cases, H1, H2. exact H3.
  - apply chain_zero.
Qed.

End Reconciler.

(** The two cases of the priority order worked out: controlled page 3 over
    internal default 5, and internal default 5 over uncontrolled default 1
    when no page is controlled. *)
Lemma reconciled_by_priority_witness :
  current (set_defaultCurrent (Num 5)
             (create seven_rows [] (Some (paging (Some (Num 3)) None None None))
                None HeightAbsent)) = Some (Num 3)
  /\ current (set_defaultCurrent (Num 5)
                (create seven_rows [] (Some (paging None (Some (Num 1)) None None))
                   None HeightAbsent)) = Some (Num 5).
Proof.
  split.
  - exact (proj1 (proj1 (reconciled_by_priority
      (set_defaultCurrent (Num 5)
         (create seven_rows [] (Some (paging (Some (Num 3)) None None None))
            None HeightAbsent)))) eq_refl).
  - exact (proj1 (proj2 (proj1 (reconciled_by_priority
      (set_defaultCurrent (Num 5)
         (create seven_rows [] (Some (paging None (Some (Num 1)) None None))
            None HeightAbsent))))) eq_refl eq_refl).
Defined.

(** C5 as the spec words it fails: with no controlled page, the internal
    default still [0] and the uncontrolled default [0], all three sources
    are falsy and the reconciled page is the number [0], not [undefined];
    the same holds for the page size. *)
Lemma reconciled_zero_counterexample :
  let props := paging None (Some (Num 0)) None (Some (Num 0)) in
  let t := create seven_rows [] (Some props) None HeightAbsent in
  Js.ToBoolean (TdPaginationProps.current props) = false
  /\ Js.truthy (defaultCurrent t) = false
  /\ Js.ToBoolean (TdPaginationProps.defaultCurrent props) = false
  /\ current t = Some (Num 0)
  /\ current t <> None
  /\ pageSize t = Some (Num 0).
Proof. repeat split; discriminate. Qed.

Lemma reconciled_zero_only_from_default_witness :
  current (create seven_rows [] (Some (paging None None None None)) None HeightAbsent)
    = None
  /\ current (create seven_rows [] (Some (paging None (Some (Num 7)) None None))
                None HeightAbsent) = Some (Num 7)
  /\ pageSize (create seven_rows [] (Some (paging None None None (Some (Num 7))))
                 None HeightAbsent) = Some (Num 7).
Proof.
  split; [|split].
  - exact (proj1 (proj2 (proj2 (reconciled_zero_only_from_default
      (create seven_rows [] (Some (paging None None None None)) None HeightAbsent))))
      eq_refl eq_refl eq_refl).
  - exact (proj1 (reconciled_zero_only_from_default
      (create seven_rows [] (Some (paging None (Some (Num 7)) None None))
         None HeightAbsent)) eq_refl eq_refl).
  - exact (proj1 (proj2 (reconciled_zero_only_from_default
      (create seven_rows [] (Some (paging None None None (Some (Num 7))))
         None HeightAbsent))) eq_refl eq_refl).
Defined.

(** ** Row slicer *)

Section Slicer.

Context {DataType : Type}.
Implicit Types (t : BaseTable DataType).


Lemma dataSource_paged t (p s : Z) :
  hasPagination t = true ->
  current t = Some (Num p) ->
  pageSize t = Some (Num s) ->
  dataSource t =
    if s <? Z.of_nat (length (data t))
    then Js.slice (data t) (Some (Num ((p - 1) * s))) (Some (Num (p * s)))
    else data t.
Proof.
  intros Hp Hc Hs. unfold dataSource. now rewrite Hp, Hc, Hs.
Qed.

(** C1: with pagination on, page [p >= 1] and size [s >= 1], and more than
    [s] rows, the row slicer returns the window [D[(p-1)*s : p*s]]: its
    [i]-th row is row [(p-1)*s + i] of the dataset for [i < s], its length
    is [min s (length D - (p-1)*s)] clamped to zero from below, and a page
    past the end of the dataset gives the empty slice. *)
Theorem dataSource_window t (p s : Z) :
  hasPagination t = true ->
  current t = Some (Num p) ->
  pageSize t = Some (Num s) ->
  1 <= p -> 1 <= s ->
  s < Z.of_nat (length (data t)) ->
  dataSource t = window (data t) ((p - 1) * s) (p * s)
  /\ (forall i : nat,
        dataSource t !! i =
          if Z.of_nat i <? s then data t !! (Z.to_nat ((p - 1) * s) + i)%nat else None)
  /\ Z.of_nat (length (dataSource t)) =
       Z.max 0 (Z.min s (Z.of_nat (length (data t)) - (p - 1) * s))
  /\ (Z.of_nat (length (data t)) <= (p - 1) * s -> dataSource t = []).
Proof.
  intros Hp Hc Hs Hp1 Hs1 Hlen.
  assert (Hwin : 0 <= (p - 1) * s <= p * s) by nia.
  assert (Hw : p * s - (p - 1) * s = s) by lia.
  assert (E : dataSource t = window (data t) ((p - 1) * s) (p * s)).
  { rewrite (dataSource_paged t p s Hp Hc Hs).
    destruct (Z.ltb_spec s (Z.of_nat (length (data t)))); [|lia].
    now apply slice_window. }
  split; [exact E|]. rewrite E. split; [|split].
  - intros i. rewrite window_lookup by exact Hwin. now rewrite Hw.
  - rewrite window_length by exact Hwin. now rewrite Hw.
  - intros Hpast. unfold window. rewrite drop_ge by lia. apply take_nil.
Qed.

(** C10: with pagination on, a page size [s] and more than [s] rows, but no
    current page from any source (none controlled, the internal one still
    [0], no uncontrolled default), the reconciled page is [undefined] and
    the row slice is empty. *)
Theorem dataSource_without_current t (props : TdPaginationProps.t) (s : Z) :
  pagination t = Some props ->
  TdPaginationProps.current props = None ->
  defaultCurrent t = Num 0 ->
  TdPaginationProps.defaultCurrent props = None ->
  pageSize t = Some (Num s) ->
  1 <= s ->
  s < Z.of_nat (length (data t)) ->
  current t = None /\ dataSource t = [].
Proof.
  intros Hp Hc Hd Hu Hs Hs1 Hlen.
  assert (Hcur : current t = None).
  { unfold current. rewrite Hp, Hd. simpl. now rewrite Hc, Hu. }
  split; [exact Hcur|].
  unfold dataSource, hasPagination. rewrite Hp, Hcur, Hs. simpl.
  destruct (Z.ltb_spec s (Z.of_nat (length (data t)))); [|lia].
  apply slice_NaN.
Qed.

End Slicer.

Lemma dataSource_window_witness :
  dataSource (create seven_rows [] (Some (paging (Some (Num 2)) None (Some (Num 3)) None))
                None HeightAbsent) = [40; 50; 60].
Proof.
  pose proof (dataSource_window
    (create seven_rows [] (Some (paging (Some (Num 2)) None (Some (Num 3)) None))
       None HeightAbsent) 2 3) as H.
  destruct H as [H _]; [reflexivity | reflexivity | reflexivity | lia | lia | simpl; lia |].
  rewrite H. reflexivity.
Defined.

Lemma dataSource_without_current_witness :
  dataSource (create seven_rows [] (Some (paging None None (Some (Num 3)) None))
                None HeightAbsent) = [].
Proof.
  refine (proj2 (dataSource_without_current
    (create seven_rows [] (Some (paging None None (Some (Num 3)) None)) None HeightAbsent)
    (paging None None (Some (Num 3)) None) 3 _ _ _ _ _ _ _));
    try reflexivity; simpl; lia.
Defined.

(** ** Empty state *)

Section EmptyState.

Context {DataType : Type}.
Implicit Types (t : BaseTable DataType).

Lemma isEmpty_true t :
  isEmpty t = true <-> dataSource t = [] /\ Js.bool_truthy (loading t) = false.
Proof.
  unfold isEmpty, Js.array_truthy. simpl.
  rewrite andb_true_iff, Nat.eqb_eq, negb_true_iff.
  now rewrite length_zero_iff_nil.
Qed.

Lemma not_loading_iff (v : option bool) :
  Js.bool_truthy v = false <-> v <> Some true.
Proof.
  destruct v as [[]|]; simpl; split; intros H; try reflexivity; try discriminate;
    try congruence.
Qed.

(** C6: the table is reported empty exactly when the current slice has no
    row and the [loading] prop is not [true] (it is [false], or absent).
    So a loading table is never reported empty, with rows or without; a
    table that is not loading is reported empty when its slice has no row,
    and not reported empty when the slice has a row. *)
Theorem isEmpty_iff t :
  (isEmpty t = true <-> dataSource t = [] /\ loading t <> Some true)
  /\ (isEmpty t = true <-> dataSource t = [] /\ isLoading t = false)
  /\ (loading t = Some true -> isEmpty t = false)
  /\ (loading t <> Some true -> dataSource t = [] -> isEmpty t = true)
  /\ (dataSource t <> [] -> isEmpty t = false).
Proof.
  assert (H : isEmpty t = true <-> dataSource t = [] /\ loading t <> Some true).
  { rewrite isEmpty_true. now rewrite not_loading_iff. }
  split; [exact H|]. split; [apply isEmpty_true|]. split; [|split].
  - intros Hl. apply not_true_is_false. intros E.
    apply H in E. destruct E as [_ E]. contradiction.
  - intros Hl Hrows. apply H. now split.
  - intros Hrows. apply not_true_is_false. intros E.
    apply H in E. destruct E as [E _]. contradiction.
Qed.

Lemma isEmpty_loading t : isLoading t = true -> isEmpty t = false.
Proof.
  unfold isEmpty, isLoading. intros ->. apply andb_false_r.
Qed.

Lemma isEmpty_rows t : dataSource t <> [] -> isEmpty t = false.
Proof.
  unfold isEmpty, Js.array_truthy. intros H.
  destruct (dataSource t) as [|row rows]; [contradiction | reflexivity].
Qed.

End EmptyState.

(** The three cases of the empty state: loading without rows, idle
    without rows, idle with a row. *)
Lemma isEmpty_iff_witness :
  isEmpty (create (@nil Z) [] None (Some true) HeightAbsent) = false
  /\ isEmpty (create (@nil Z) [] None (Some false) HeightAbsent) = true
  /\ isEmpty (create [10] [] None (Some false) HeightAbsent) = false.
Proof.
  split; [|split].
  - exact (proj1 (proj2 (proj2 (isEmpty_iff
      (create (@nil Z) [] None (Some true) HeightAbsent)))) eq_refl).
  - refine (proj1 (proj2 (proj2 (proj2 (isEmpty_iff
      (create (@nil Z) [] None (Some false) HeightAbsent))))) _ eq_refl).
    discriminate.
  - refine (proj2 (proj2 (proj2 (proj2 (isEmpty_iff
      (create [10] [] None (Some false) HeightAbsent))))) _).
    discriminate.
Defined.

Example isEmpty_loading_no_rows :
  isEmpty (create (@nil Z) [] None (Some true) HeightAbsent) = false.
Proof. reflexivity. Qed.

Example isEmpty_idle_no_rows :
  isEmpty (create (@nil Z) [] None (Some false) HeightAbsent) = true.
Proof. reflexivity. Qed.

Example isEmpty_idle_one_row :
  isEmpty (create [10] [] None (Some false) HeightAbsent) = false.
Proof. reflexivity. Qed.

Example isEmpty_loading_absent :
  isEmpty (create (@nil Z) [] None None HeightAbsent) = true.
Proof. reflexivity. Qed.

(** ** Fixed columns *)

Section Columns.

Context {DataType : Type}.
Implicit Types (t : BaseTable DataType) (c : BaseTableCol).

Lemma is_fixed_true c :
  is_fixed c = true <-> fixed c = Some FixedLeft \/ fixed c = Some FixedRight.
Proof.
  unfold is_fixed. destruct (fixed c) as [[]|]; split; intros H;
    try reflexivity; try discriminate; auto.
  destruct H; discriminate.
Qed.

Lemma flatColumn_leaf c : children c = [] -> flatColumn c = [c].
Proof. intros H. destruct c as [k f cs]. simpl in *. now subst cs. Qed.

Lemma flatColumns_leaves (cols : list BaseTableCol) :
  Forall (fun c => children c = []) cols -> flatColumns cols = cols.
Proof.
  unfold flatColumns. induction 1 as [|c cols Hc _ IH]; [reflexivity|].
  simpl. rewrite (flatColumn_leaf c Hc), IH. reflexivity.
Qed.

Lemma hasFixedColumns_exists t :
  hasFixedColumns t = true <-> exists c, c ∈ columns t /\ is_fixed c = true.
Proof.
  unfold hasFixedColumns. rewrite existsb_exists.
  split; intros (c & Hin & Hc); exists c; split; try assumption;
    now apply list_elem_of_In.
Qed.

(** C3, as the code has it: [hasFixedColumns] looks at the columns of the
    column specification themselves, not at the flattened leaves.  It is
    true exactly when one of the top-level columns has [fixed] equal to
    ['left'] or ['right']; when no top-level column has children, the
    flattened list is the column list and the two criteria agree. *)
Theorem hasFixedColumns_top_level t :
  (hasFixedColumns t = true <->
   exists c, c ∈ columns t /\ (fixed c = Some FixedLeft \/ fixed c = Some FixedRight))
  /\ (Forall (fun c => children c = []) (columns t) ->
      (hasFixedColumns t = true <->
       exists c, c ∈ flattedColumns t
                 /\ (fixed c = Some FixedLeft \/ fixed c = Some FixedRight))).
Proof.
  assert (H : hasFixedColumns t = true <->
    exists c, c ∈ columns t /\ (fixed c = Some FixedLeft \/ fixed c = Some FixedRight)).
  { rewrite hasFixedColumns_exists.
    split; intros (c & Hin & Hc); exists c; split; try assumption;
      now apply is_fixed_true. }
  split; [exact H|].
  intros Hflat. unfold flattedColumns. now rewrite flatColumns_leaves.
Qed.

End Columns.

(** C3 as the spec words it fails on a nested specification: a group
    column that is not fixed itself, over a leaf fixed to the left.  The
    flattened list holds a fixed leaf, and [hasFixedColumns] is false. *)
Lemma hasFixedColumns_nested_counterexample :
  let a := Col "a" (Some FixedLeft) [] in
  let b := Col "b" None [] in
  let t := create (@nil Z) [Col "group" None [a; b]] None None HeightAbsent in
  flattedColumns t = [a; b]
  /\ (exists c, c ∈ flattedColumns t /\ fixed c = Some FixedLeft)
  /\ hasFixedColumns t = false.
Proof.
  simpl. split; [reflexivity|]. split; [|reflexivity].
  exists (Col "a" (Some FixedLeft) []). split; [|reflexivity].
  apply list_elem_of_here.
Qed.

(** The other direction fails too: a fixed group over leaves that are not
    fixed. *)
Example hasFixedColumns_group_only :
  let t := create (@nil Z) [Col "group" (Some FixedRight) [Col "a" None []]]
             None None HeightAbsent in
  hasFixedColumns t = true /\ existsb is_fixed (flattedColumns t) = false.
Proof. split; reflexivity. Qed.

Lemma hasFixedColumns_top_level_witness :
  let t := create (@nil Z) [Col "a" (Some FixedLeft) []; Col "b" None [];
                            Col "c" (Some FixedRight) []] None None HeightAbsent in
  flattedColumns t = columns t
  /\ hasFixedColumns t = true
  /\ exists c, c ∈ flattedColumns t
               /\ (fixed c = Some FixedLeft \/ fixed c = Some FixedRight).
Proof.
  simpl. split; [reflexivity|]. split; [reflexivity|].
  apply (proj2 (hasFixedColumns_top_level
    (create (@nil Z) [Col "a" (Some FixedLeft) []; Col "b" None [];
                      Col "c" (Some FixedRight) []] None None HeightAbsent))).
  - repeat constructor.
  - reflexivity.
Defined.

(** ** Layout mode *)

Section Layout.

Context {DataType : Type}.
Implicit Types (t : BaseTable DataType).

Lemma layoutMode_split t :
  layoutMode t = FIXED_HEADER_SPLIT <-> exists n, tableHeight t = Num n /\ 0 < n.
Proof.
  unfold layoutMode, fixedHeader.
  destruct (tableHeight t) as [n|]; simpl.
  - destruct (Z.ltb_spec 0 n); split; try discriminate; eauto.
    intros (m & [= <-] & Hm). lia.
  - split; [discriminate|]. intros (m & Hm & _). discriminate.
Qed.

Lemma layoutMode_single t :
  layoutMode t = SINGLE_BLOCK <->
  tableHeight t = NaN \/ exists n, tableHeight t = Num n /\ n <= 0.
Proof.
  unfold layoutMode, fixedHeader.
  destruct (tableHeight t) as [n|]; simpl.
  - destruct (Z.ltb_spec 0 n); split; try discriminate; eauto.
    intros [|(m & [= <-] & Hm)]; [discriminate | lia].
  - split; auto.
Qed.

(** C4, as the code has it: the layout mode depends on the height alone.
    A number above [0], or a string that [parseInt] reads as a number
    above [0], selects the split layout.  An absent height, the number
    [0] and a [NaN] number give the table height [0]; a string that
    [parseInt] cannot read gives the table height [NaN], not [0]; all of
    them select the single block. *)
Theorem layoutMode_by_height t :
  (forall t' : BaseTable DataType, height t' = height t -> layoutMode t' = layoutMode t)
  /\ (forall n, height t = HeightNumber (Num n) -> 0 < n ->
       layoutMode t = FIXED_HEADER_SPLIT)
  /\ (forall s n, height t = HeightString s -> Js.parseInt10 s = Num n -> 0 < n ->
       layoutMode t = FIXED_HEADER_SPLIT)
  /\ (height t = HeightAbsent \/ height t = HeightNumber (Num 0)
       \/ height t = HeightNumber NaN ->
       tableHeight t = Num 0 /\ layoutMode t = SINGLE_BLOCK)
  /\ (forall s, height t = HeightString s -> Js.parseInt10 s = NaN ->
       tableHeight t = NaN /\ layoutMode t = SINGLE_BLOCK).
Proof.
  split; [|split; [|split; [|split]]].
  - intros t' H. unfold layoutMode, fixedHeader, tableHeight. now rewrite H.
  - intros n H Hn. apply layoutMode_split. exists n. split; [|exact Hn].
    unfold tableHeight. rewrite H. rewrite truthy_Num by lia. reflexivity.
  - intros s n H Hs Hn. apply layoutMode_split. exists n. split; [|exact Hn].
    unfold tableHeight. now rewrite H.
  - intros H.
    assert (E : tableHeight t = Num 0)
      by (unfold tableHeight; destruct H as [-> | [-> | ->]]; reflexivity).
    split; [exact E|]. apply layoutMode_single. right. exists 0. split; [exact E | lia].
  - intros s H Hs.
    assert (E : tableHeight t = NaN) by (unfold tableHeight; now rewrite H).
    split; [exact E|]. apply layoutMode_single. now left.
Qed.

End Layout.

(** C4 as the spec words it fails on a height that is not numeric: the
    string ["auto"] does not parse to [0], the table height is [NaN]. *)
Lemma tableHeight_auto_counterexample :
  let t := create (@nil Z) [] None None (HeightString "auto") in
  tableHeight t = NaN /\ tableHeight t <> Num 0.
Proof. split; [reflexivity | discriminate]. Qed.

(** The three heights of the spec: ["120"], [0] and [undefined]. *)
Lemma layoutMode_by_height_witness :
  layoutMode (create (@nil Z) [] None None (HeightString "120")) = FIXED_HEADER_SPLIT
  /\ layoutMode (create (@nil Z) [] None None (HeightNumber (Num 0))) = SINGLE_BLOCK
  /\ layoutMode (create (@nil Z) [] None None HeightAbsent) = SINGLE_BLOCK.
Proof.
  split; [|split].
  - refine (proj1 (proj2 (proj2 (layoutMode_by_height
      (create (@nil Z) [] None None (HeightString "120"))))) "120"%string 120 _ _ _);
      [reflexivity | reflexivity | lia].
  - refine (proj2 (proj1 (proj2 (proj2 (proj2 (layoutMode_by_height
      (create (@nil Z) [] None None (HeightNumber (Num 0))))))) _)).
    right; left; reflexivity.
  - refine (proj2 (proj1 (proj2 (proj2 (proj2 (layoutMode_by_height
      (create (@nil Z) [] None None HeightAbsent))))) _)).
    left; reflexivity.
Defined.

Example layoutMode_negative :
  layoutMode (create (@nil Z) [] None None (HeightString "-5")) = SINGLE_BLOCK.
Proof. reflexivity. Qed.

Example layoutMode_px :
  layoutMode (create (@nil Z) [] None None (HeightString "300px")) = FIXED_HEADER_SPLIT.
Proof. reflexivity. Qed.

(** ** Scroll affordance check *)

Section Affordance.

Context {DataType : Type}.
Implicit Types (w : World DataType).

(** C8, as the code has it: the check reads the scroll container without
    testing that the ref is there.  With the ref absent it throws a
    [TypeError] and leaves the page, the instance included, exactly as it
    was.  With the ref present it returns, and the page afterwards is the
    page before with the two flags set from the element's geometry:
    props, pagination defaults, scrollbar width, refs, listeners,
    functions, timers and trace are what they were. *)
Theorem checkScrollable_outcome w :
  (refs (this w) !! (if fixedHeader (this w) then "scrollBody" else "tableContent") = None ->
   checkScrollableToLeftOrRight w = Throw TypeError w)
  /\ (forall el,
       refs (this w) !! (if fixedHeader (this w) then "scrollBody" else "tableContent")
         = Some el ->
       exists w',
         checkScrollableToLeftOrRight w = Ok tt w'
         /\ scrollableToLeft (this w') = (0 <? scrollLeft el)
         /\ scrollableToRight (this w') = (scrollLeft el + clientWidth el <? scrollWidth el)
         /\ defaultCurrent (this w') = defaultCurrent (this w)
         /\ defaultPageSize (this w') = defaultPageSize (this w)
         /\ listeners w' = listeners w
         /\ trace w' = trace w
         /\ data (this w') = data (this w)
         /\ columns (this w') = columns (this w)
         /\ pagination (this w') = pagination (this w)
         /\ loading (this w') = loading (this w)
         /\ height (this w') = height (this w)
         /\ scrollBarWidth (this w') = scrollBarWidth (this w)
         /\ refs (this w') = refs (this w)
         /\ functions w' = functions w
         /\ next_fn w' = next_fn w
         /\ timers w' = timers w
         /\ probe_offsetWidth w' = probe_offsetWidth w
         /\ probe_clientWidth w' = probe_clientWidth w
         /\ w' = checked el w).
Proof.
  split.
  - intros H. unfold checkScrollableToLeftOrRight, bind, get_this. now rewrite H.
  - intros el H. unfold checkScrollableToLeftOrRight, bind, get_this. rewrite H.
    run_method. eexists. split; [reflexivity|]. simpl. repeat split.
Qed.

End Affordance.

(** C8 as the spec words it fails before the first render: the instance
    has no ref yet, and the check throws instead of doing nothing. *)
Lemma checkScrollable_absent_ref_counterexample :
  let w := page_of (create seven_rows [Col "a" (Some FixedLeft) []] None None HeightAbsent) in
  refs (this w) !! "tableContent" = None
  /\ checkScrollableToLeftOrRight w = Throw TypeError w
  /\ returns (checkScrollableToLeftOrRight w) = false.
Proof. repeat split. Qed.

(** A region of content width 300 and client width 100, scrolled to 0: it
    can scroll to the right and not to the left. *)
Lemma checkScrollable_outcome_witness :
  let el := {| scrollLeft := 0; scrollWidth := 300; clientWidth := 100 |} in
  let w := page_of (rendered "tableContent" el
                      (create seven_rows [] None None HeightAbsent)) in
  exists w',
    checkScrollableToLeftOrRight w = Ok tt w'
    /\ scrollableToLeft (this w') = false
    /\ scrollableToRight (this w') = true.
Proof.
  simpl.
  destruct (proj2 (checkScrollable_outcome
    (page_of (rendered "tableContent"
                {| scrollLeft := 0; scrollWidth := 300; clientWidth := 100 |}
                (create seven_rows [] None None HeightAbsent))))
    {| scrollLeft := 0; scrollWidth := 300; clientWidth := 100 |} eq_refl)
    as (w' & Hrun & Hl & Hr & _).
  exists w'. split; [exact Hrun|]. split; [exact Hl | exact Hr].
Defined.

Example checkScrollable_middle :
  let el := {| scrollLeft := 100; scrollWidth := 300; clientWidth := 100 |} in
  let w := final_world (checkScrollableToLeftOrRight
             (page_of (rendered "tableContent" el
                         (create seven_rows [] None None HeightAbsent)))) in
  scrollableToLeft (this w) = true /\ scrollableToRight (this w) = true.
Proof. split; reflexivity. Qed.

Example checkScrollable_end :
  let el := {| scrollLeft := 200; scrollWidth := 300; clientWidth := 100 |} in
  let w := final_world (checkScrollableToLeftOrRight
             (page_of (rendered "scrollBody" el
                         (create seven_rows [] None None (HeightNumber (Num 120)))))) in
  scrollableToLeft (this w) = true /\ scrollableToRight (this w) = false.
Proof. split; reflexivity. Qed.

(** ** The resize listener *)

Section ResizeListener.

Context {DataType : Type}.
Implicit Types (w : World DataType) (ls : list (string * fn_ref)).

Lemma remove_listener_other ls (e x : string * fn_ref) :
  e ∈ ls -> e <> x -> e ∈ remove_listener x ls.
Proof.
  intros Hin Hne. induction ls as [|y ls IH]; simpl.
  - exact Hin.
  - destruct (decide (y = x)) as [->|Hy].
    + apply elem_of_cons in Hin. destruct Hin as [->|Hin]; [contradiction | exact Hin].
    + apply elem_of_cons in Hin. destruct Hin as [->|Hin].
      * apply list_elem_of_here.
      * apply list_elem_of_further. now apply IH.
Qed.

Lemma remove_listener_absent ls (x : string * fn_ref) :
  x ∉ ls -> remove_listener x ls = ls.
Proof.
  induction ls as [|y ls IH]; simpl; [reflexivity|].
  intros Hx. destruct (decide (y = x)) as [->|Hy].
  - exfalso. apply Hx. apply list_elem_of_here.
  - f_equal. apply IH. intros Hin. apply Hx. now apply list_elem_of_further.
Qed.

(** What [mounted] leaves behind on a table with fixed columns. *)
Lemma mounted_fixed w :
  hasFixedColumns (this w) = true ->
  exists w1,
    mounted w = Ok tt w1
    /\ ("resize", Closure (S (next_fn w))) ∈ listeners w1
    /\ functions w1 !! S (next_fn w) = Some (Debounced (Method "checkScrollableToLeftOrRight"))
    /\ next_fn w1 = S (S (next_fn w))
    /\ trace w1 = trace w ++ [SetTimeout (Closure (next_fn w)) 0;
                              AddEventListener "resize" (Closure (S (next_fn w)))].
Proof.
  intros Hfixed.
  unfold mounted, addWindowResizeEventListener, addEventListener, bind, get_this.
  rewrite Hfixed. run_method.
  destruct (decide (("resize", Closure (S (next_fn w))) ∈ listeners w)) as [Hin|Hout];
    simpl; eexists; (split; [reflexivity|]); simpl.
  - repeat split; [exact Hin | apply lookup_insert_eq | now rewrite <- app_assoc].
  - repeat split; [| apply lookup_insert_eq | now rewrite <- app_assoc].
    apply elem_of_app. right. apply list_elem_of_here.
Qed.

(** What [unmounted] does: it removes a wrapper it has just built. *)
Lemma unmounted_run w :
  unmounted w =
    Ok tt {| this := this w;
             listeners := remove_listener ("resize", Closure (next_fn w)) (listeners w);
             functions := <[next_fn w := Debounced (Method "checkScrollableToLeftOrRight")]>
                            (functions w);
             next_fn := S (next_fn w); timers := timers w;
             probe_offsetWidth := probe_offsetWidth w;
             probe_clientWidth := probe_clientWidth w;
             trace := trace w ++ [RemoveEventListener "resize" (Closure (next_fn w))] |}.
Proof. reflexivity. Qed.

(** C9 fails on the code: on a table with fixed columns, the function
    handed to [removeEventListener] at teardown is a wrapper built at
    that moment, another object than the wrapper registered at mount, and
    the registered listener is still attached afterwards. *)
Theorem unmounted_keeps_resize_listener w :
  hasFixedColumns (this w) = true ->
  exists w1 w2 registered removed,
    mounted w = Ok tt w1
    /\ unmounted w1 = Ok tt w2
    /\ trace w2 = trace w ++ [SetTimeout (Closure (next_fn w)) 0;
                              AddEventListener "resize" registered;
                              RemoveEventListener "resize" removed]
    /\ registered <> removed
    /\ functions w2 !! S (next_fn w) = Some (Debounced (Method "checkScrollableToLeftOrRight"))
    /\ registered = Closure (S (next_fn w))
    /\ ("resize", registered) ∈ listeners w2.
Proof.
  intros Hfixed.
  destruct (mounted_fixed w Hfixed) as (w1 & Hrun & Hin & Hfn & Hnext & Htrace).
  exists w1. eexists. exists (Closure (S (next_fn w))), (Closure (S (S (next_fn w)))).
  split; [exact Hrun|]. split; [rewrite unmounted_run; reflexivity|]. simpl.
  rewrite Hnext, Htrace. split; [now rewrite <- app_assoc|].
  split; [intros [= H]; lia|].
  split; [rewrite lookup_insert_ne by lia; exact Hfn|].
  split; [reflexivity|].
  apply remove_listener_other; [exact Hin|]. intros [= H]. lia.
Qed.

End ResizeListener.

Lemma unmounted_keeps_resize_listener_witness :
  let w := page_of (create seven_rows [Col "a" (Some FixedLeft) []; Col "b" None []]
                      None None HeightAbsent) in
  hasFixedColumns (this w) = true
  /\ exists w2, unmounted (final_world (mounted w)) = Ok tt w2
                /\ ("resize", Closure 1) ∈ listeners w2.
Proof.
  cbv zeta. split; [reflexivity|].
  destruct (unmounted_keeps_resize_listener
    (page_of (create seven_rows [Col "a" (Some FixedLeft) []; Col "b" None []]
                None None HeightAbsent)) eq_refl)
    as (w1 & w2 & registered & removed & H1 & H2 & _ & _ & _ & Hreg & Hin).
  exists w2. rewrite H1. simpl. split; [exact H2|]. now subst registered.
Defined.

Example unmounted_listeners_left :
  let w := page_of (create seven_rows [Col "a" (Some FixedLeft) []]
                      None None HeightAbsent) in
  listeners (final_world (unmounted (final_world (mounted w)))) = [("resize", Closure 1)]
  /\ trace (final_world (unmounted (final_world (mounted w)))) =
       [SetTimeout (Closure 0) 0; AddEventListener "resize" (Closure 1);
        RemoveEventListener "resize" (Closure 2)].
Proof. split; reflexivity. Qed.

(** ** Pagination events *)

Section PageChange.

Context {DataType : Type}.
Implicit Types (w : World DataType) (props : TdPaginationProps.t).

(** C7: a "current changed" event of the pagination widget emits
    [page-change] with the new page info and the row slice of the instance
    as it is when the handler starts, then stores the new page in
    [defaultCurrent] (and only there), then calls the host's
    [onCurrentChange] if there is one; a "page-size changed" event does
    the same with [defaultPageSize] and [onPageSizeChange]. *)
Theorem page_change_carries_old_slice w props (value : number) (pageInfo : PageInfo.t) :
  (exists w',
     renderPagination_onCurrentChange props value pageInfo w = Ok tt w'
     /\ defaultCurrent (this w') = value
     /\ defaultPageSize (this w') = defaultPageSize (this w)
     /\ data (this w') = data (this w)
     /\ pagination (this w') = pagination (this w)
     /\ trace w' =
          trace w ++ Emit "page-change" pageInfo (dataSource (this w))
            :: match TdPaginationProps.onCurrentChange props with
               | Some cb => [CallOnCurrentChange cb value pageInfo]
               | None => []
               end)
  /\ (exists w',
       renderPagination_onPageSizeChange props value pageInfo w = Ok tt w'
       /\ defaultPageSize (this w') = value
       /\ defaultCurrent (this w') = defaultCurrent (this w)
       /\ data (this w') = data (this w)
       /\ pagination (this w') = pagination (this w)
       /\ trace w' =
            trace w ++ Emit "page-change" pageInfo (dataSource (this w))
              :: match TdPaginationProps.onPageSizeChange props with
                 | Some cb => [CallOnPageSizeChange cb value pageInfo]
                 | None => []
                 end).
Proof.
  split.
  - unfold renderPagination_onCurrentChange.
    destruct (TdPaginationProps.onCurrentChange props) as [cb|]; run_method;
      eexists; (split; [reflexivity|]); simpl; repeat split.
    now rewrite <- app_assoc.
  - unfold renderPagination_onPageSizeChange.
    destruct (TdPaginationProps.onPageSizeChange props) as [cb|]; run_method;
      eexists; (split; [reflexivity|]); simpl; repeat split.
    now rewrite <- app_assoc.
Qed.

End PageChange.

(** An uncontrolled table of seven rows, three to a page, on page 1: when
    the widget reports page 2, the notification carries the rows of page
    1, and the slice computed afterwards is page 2. *)
Example page_change_to_page_2 :
  let props := paging None (Some (Num 1)) (Some (Num 3)) None in
  let w := page_of (create seven_rows [] (Some props) None HeightAbsent) in
  let pageInfo := PageInfo.Make (Num 2) (Num 1) (Num 3) in
  let w' := final_world (renderPagination_onCurrentChange props (Num 2) pageInfo w) in
  trace w' = [Emit "page-change" pageInfo [10; 20; 30]]
  /\ defaultCurrent (this w') = Num 2
  /\ dataSource (this w') = [40; 50; 60].
Proof. repeat split. Qed.

(** ** Worked values *)

Example slice_3_5 :
  Js.slice seven_rows (Some (Num 3)) (Some (Num 5)) = [40; 50].
Proof. reflexivity. Qed.

Example slice_past_end :
  Js.slice seven_rows (Some (Num 9)) (Some (Num 12)) = [].
Proof. reflexivity. Qed.

Example slice_negative :
  Js.slice seven_rows (Some (Num (-2))) None = [60; 70].
Proof. reflexivity. Qed.

Example dataSource_last_page :
  dataSource (create seven_rows [] (Some (paging (Some (Num 3)) None (Some (Num 3)) None))
                None HeightAbsent) = [70].
Proof. reflexivity. Qed.

Example dataSource_short_dataset :
  dataSource (create seven_rows [] (Some (paging (Some (Num 4)) None (Some (Num 7)) None))
                None HeightAbsent) = seven_rows.
Proof. reflexivity. Qed.

Example parseInt_120 : Js.parseInt10 "120" = Num 120.
Proof. reflexivity. Qed.

Example parseInt_signed_px : Js.parseInt10 "  -12px" = Num (-12).
Proof. reflexivity. Qed.

Example parseInt_empty : Js.parseInt10 EmptyString = NaN.
Proof. reflexivity. Qed.

Example flatColumns_order :
  flatColumns [Col "g" None [Col "a" (Some FixedLeft) []; Col "b" None []];
               Col "c" (Some FixedRight) []]
  = [Col "a" (Some FixedLeft) []; Col "b" None []; Col "c" (Some FixedRight) []].
Proof. reflexivity. Qed.

(** * Further properties *)

(** ** The row slicer on every input *)

Section SlicerBounds.

Context {DataType : Type}.
Implicit Types (t : BaseTable DataType) (D : list DataType).

Lemma slice_sublist D (start end_ : Js.optnum) : sublist (Js.slice D start end_) D.
Proof.
  unfold Js.slice. etransitivity; [apply sublist_take | apply sublist_drop].
Qed.

(** The two bounds of a page are at most a page size apart once resolved
    against the length, wherever the page lies. *)
Lemma relative_index_page len (c s : Z) :
  0 <= len -> 0 <= s ->
  Js.relative_index len (c * s) - Js.relative_index len ((c - 1) * s) <= s.
Proof.
  intros Hlen Hs. unfold Js.relative_index.
  destruct (Z.ltb_spec (c * s) 0), (Z.ltb_spec ((c - 1) * s) 0); nia.
Qed.

Lemma slice_page_length D (c : number) (s : Z) :
  0 <= s ->
  Z.of_nat (length (Js.slice D (Some (Js.mul (Js.sub c (Num 1)) (Num s)))
                      (Some (Js.mul c (Num s))))) <= s.
Proof.
  intros Hs. destruct c as [c|]; simpl.
  - unfold Js.slice; simpl. rewrite length_take.
    pose proof (relative_index_page (Z.of_nat (length D)) c s ltac:(lia) Hs). lia.
  - rewrite slice_NaN. simpl. lia.
Qed.

(** For pages and page sizes that are whole numbers (or [NaN], or absent):
    the slice never holds a row that is not in the dataset, nor rows out of
    order; and with pagination on and a whole page size [s >= 1] it never
    holds more than [s] rows, whether the current page is absent, [NaN],
    zero, negative or any other whole number. *)
Theorem dataSource_bounded t :
  sublist (dataSource t) (data t)
  /\ (forall s, hasPagination t = true -> pageSize t = Some (Num s) -> 1 <= s ->
       Z.of_nat (length (dataSource t)) <= s).
Proof.
  split.
  - unfold dataSource.
    destruct (negb (hasPagination t)); [apply slice_sublist|].
    destruct (Js.gt _ _); [apply slice_sublist | reflexivity].
  - intros s Hp Hs Hs1. unfold dataSource. rewrite Hp, Hs. simpl.
    destruct (Z.ltb_spec s (Z.of_nat (length (data t)))).
    + apply slice_page_length. lia.
    + assumption.
Qed.

Lemma window_next_page D (s : Z) (n : nat) :
  1 <= s ->
  window D ((Z.of_nat (S n) - 1) * s) (Z.of_nat (S n) * s)
  = take (Z.to_nat s) (drop (n * Z.to_nat s) D).
Proof.
  intros Hs. unfold window. f_equal; [f_equal; lia | f_equal; nia].
Qed.

Lemma window_pages D (s : Z) (n : nat) :
  1 <= s ->
  flat_map (fun p : nat => window D ((Z.of_nat p - 1) * s) (Z.of_nat p * s)) (seq 1 n)
  = take (n * Z.to_nat s) D.
Proof.
  intros Hs. induction n as [|n IH].
  - reflexivity.
  - rewrite seq_S, flat_map_app, IH. cbn [flat_map Nat.add]. rewrite app_nil_r.
    rewrite window_next_page by exact Hs. rewrite take_take_drop. f_equal. lia.
Qed.

(** The pages tile the dataset: for a page size [s >= 1] smaller than the
    dataset, the slices of the pages [1 .. n], in order, make up the dataset
    again as soon as [n * s] reaches its length; no row is lost, repeated or
    moved. *)
Theorem pages_tile_dataset (T : nat -> BaseTable DataType) D (s : Z) (n : nat) :
  1 <= s ->
  s < Z.of_nat (length D) ->
  Z.of_nat (length D) <= Z.of_nat n * s ->
  (forall p : nat, (1 <= p <= n)%nat ->
     data (T p) = D /\ hasPagination (T p) = true
     /\ current (T p) = Some (Num (Z.of_nat p)) /\ pageSize (T p) = Some (Num s)) ->
  flat_map (fun p : nat => dataSource (T p)) (seq 1 n) = D.
Proof.
  intros Hs Hlen Hn HT.
  rewrite <- (take_ge D (n * Z.to_nat s)) by nia.
  rewrite <- (window_pages D s n Hs).
  rewrite !flat_map_concat_map. f_equal.
  apply map_ext_in. intros p Hp. apply in_seq in Hp.
  destruct (HT p ltac:(lia)) as (HD & Hpag & Hcur & Hsize).
  rewrite (dataSource_paged (T p) (Z.of_nat p) s Hpag Hcur Hsize), HD.
  destruct (Z.ltb_spec s (Z.of_nat (length D))); [|lia].
  apply slice_window. nia.
Qed.


End SlicerBounds.

Lemma dataSource_bounded_witness :
  Z.of_nat (length (dataSource
    (create seven_rows [] (Some (paging (Some (Num (-1))) None (Some (Num 3)) None))
       None HeightAbsent))) <= 3.
Proof.
  apply (proj2 (dataSource_bounded
    (create seven_rows [] (Some (paging (Some (Num (-1))) None (Some (Num 3)) None))
       None HeightAbsent)) 3); [reflexivity | reflexivity | lia].
Defined.

Lemma pages_tile_dataset_witness :
  flat_map (fun p : nat => dataSource
    (create seven_rows [] (Some (paging (Some (Num (Z.of_nat p))) None (Some (Num 3)) None))
       None HeightAbsent)) (seq 1 3) = seven_rows.
Proof.
  apply (pages_tile_dataset
    (fun p : nat =>
       create seven_rows [] (Some (paging (Some (Num (Z.of_nat p))) None (Some (Num 3)) None))
         None HeightAbsent) seven_rows 3 3); [lia | simpl; lia | simpl; lia |].
  intros p [Hp _]. repeat split.
  unfold current. simpl. destruct p as [|p]; [lia | reflexivity].
Defined.


Example dataSource_negative_page :
  dataSource (create seven_rows [] (Some (paging (Some (Num (-1))) None (Some (Num 3)) None))
                None HeightAbsent) = [20; 30; 40].
Proof. reflexivity. Qed.

Example dataSource_page_zero :
  dataSource (create seven_rows [] (Some (paging None (Some (Num 0)) (Some (Num 3)) None))
                None HeightAbsent) = [].
Proof. reflexivity. Qed.

(** ** Page changes, controlled and uncontrolled *)

Section Navigation.

Context {DataType : Type}.
Implicit Types (w : World DataType) (t : BaseTable DataType)
  (props : TdPaginationProps.t) (pageInfo : PageInfo.t).

Lemma onCurrentChange_run w props (value : number) pageInfo :
  exists w',
    renderPagination_onCurrentChange props value pageInfo w = Ok tt w'
    /\ this w' = set_defaultCurrent value (this w)
    /\ trace w' =
         trace w ++ Emit "page-change" pageInfo (dataSource (this w))
           :: match TdPaginationProps.onCurrentChange props with
              | Some cb => [CallOnCurrentChange cb value pageInfo]
              | None => []
              end.
Proof.
  unfold renderPagination_onCurrentChange.
  destruct (TdPaginationProps.onCurrentChange props) as [cb|]; run_method;
    eexists; (split; [reflexivity|]); simpl; (split; [reflexivity|]);
    [now rewrite <- app_assoc | reflexivity].
Qed.

Lemma onPageSizeChange_run w props (value : number) pageInfo :
  exists w',
    renderPagination_onPageSizeChange props value pageInfo w = Ok tt w'
    /\ this w' = set_defaultPageSize value (this w)
    /\ trace w' =
         trace w ++ Emit "page-change" pageInfo (dataSource (this w))
           :: match TdPaginationProps.onPageSizeChange props with
              | Some cb => [CallOnPageSizeChange cb value pageInfo]
              | None => []
              end.
Proof.
  unfold renderPagination_onPageSizeChange.
  destruct (TdPaginationProps.onPageSizeChange props) as [cb|]; run_method;
    eexists; (split; [reflexivity|]); simpl; (split; [reflexivity|]);
    [now rewrite <- app_assoc | reflexivity].
Qed.

Lemma current_set_defaultCurrent t (value : number) :
  current (set_defaultCurrent value t) =
    Js.or (Js.or (pagination t ≫= TdPaginationProps.current) (Some value))
          (pagination t ≫= TdPaginationProps.defaultCurrent).
Proof. reflexivity. Qed.

Lemma pageSize_set_defaultPageSize t (value : number) :
  pageSize (set_defaultPageSize value t) =
    Js.or (Js.or (pagination t ≫= TdPaginationProps.pageSize) (Some value))
          (pagination t ≫= TdPaginationProps.defaultPageSize).
Proof. reflexivity. Qed.

Lemma dataSource_ext t t' :
  data t' = data t -> hasPagination t' = hasPagination t ->
  current t' = current t -> pageSize t' = pageSize t ->
  dataSource t' = dataSource t.
Proof. intros Hd Hp Hc Hs. unfold dataSource. now rewrite Hd, Hp, Hc, Hs. Qed.

(** While the host controls the page (a usable [pagination.current]), a
    "current changed" event of the widget changes neither the reconciled
    page nor the row slice: the table shows the same rows until the host
    passes a new [current].  The same holds for the page size under a
    usable [pagination.pageSize]. *)
Theorem controlled_page_change_keeps_slice w props (value : number) pageInfo :
  (Js.ToBoolean (pagination (this w) ≫= TdPaginationProps.current) = true ->
   exists w',
     renderPagination_onCurrentChange props value pageInfo w = Ok tt w'
     /\ current (this w') = current (this w)
     /\ pageSize (this w') = pageSize (this w)
     /\ dataSource (this w') = dataSource (this w))
  /\ (Js.ToBoolean (pagination (this w) ≫= TdPaginationProps.pageSize) = true ->
      exists w',
        renderPagination_onPageSizeChange props value pageInfo w = Ok tt w'
        /\ current (this w') = current (this w)
        /\ pageSize (this w') = pageSize (this w)
        /\ dataSource (this w') = dataSource (this w)).
Proof.
  split; intros Hc.
  - destruct (onCurrentChange_run w props value pageInfo) as (w' & Hrun & Hthis & _).
    exists w'. split; [exact Hrun|]. rewrite Hthis.
    assert (E : current (set_defaultCurrent value (this w)) = current (this w)).
    { rewrite current_set_defaultCurrent. unfold current.
      now rewrite !chain_cases, Hc. }
    split; [exact E|]. split; [reflexivity|].
    now apply dataSource_ext.
  - destruct (onPageSizeChange_run w props value pageInfo) as (w' & Hrun & Hthis & _).
    exists w'. split; [exact Hrun|]. rewrite Hthis.
    assert (E : pageSize (set_defaultPageSize value (this w)) = pageSize (this w)).
    { rewrite pageSize_set_defaultPageSize. unfold pageSize.
      now rewrite !chain_cases, Hc. }
    split; [reflexivity|]. split; [exact E|].
    now apply dataSource_ext.
Qed.

Lemma dataSource_after_page t (p s : Z) :
  hasPagination t = true ->
  Js.ToBoolean (pagination t ≫= TdPaginationProps.current) = false ->
  pageSize t = Some (Num s) ->
  1 <= p -> 1 <= s -> s < Z.of_nat (length (data t)) ->
  current (set_defaultCurrent (Num p) t) = Some (Num p)
  /\ dataSource (set_defaultCurrent (Num p) t) = window (data t) ((p - 1) * s) (p * s).
Proof.
  intros Hpag Hc Hs Hp1 Hs1 Hlen.
  assert (E : current (set_defaultCurrent (Num p) t) = Some (Num p)).
  { rewrite current_set_defaultCurrent, chain_cases, Hc.
    now rewrite truthy_Num by lia. }
  split; [exact E|].
  rewrite (dataSource_paged (set_defaultCurrent (Num p) t) p s Hpag E Hs). simpl.
  destruct (Z.ltb_spec s (Z.of_nat (length (data t)))); [|lia].
  apply slice_window. nia.
Qed.

(** Without a usable controlled page, a "current changed" event to a page
    [p >= 1] makes [p] the reconciled page, and the row slice computed
    afterwards is the window of page [p] (for a page size [s >= 1] below
    the number of rows). *)
Theorem uncontrolled_page_change_moves_slice w props (p s : Z) pageInfo :
  hasPagination (this w) = true ->
  Js.ToBoolean (pagination (this w) ≫= TdPaginationProps.current) = false ->
  pageSize (this w) = Some (Num s) ->
  1 <= p -> 1 <= s -> s < Z.of_nat (length (data (this w))) ->
  exists w',
    renderPagination_onCurrentChange props (Num p) pageInfo w = Ok tt w'
    /\ current (this w') = Some (Num p)
    /\ dataSource (this w') = window (data (this w)) ((p - 1) * s) (p * s).
Proof.
  intros Hpag Hc Hs Hp1 Hs1 Hlen.
  destruct (onCurrentChange_run w props (Num p) pageInfo) as (w' & Hrun & Hthis & _).
  exists w'. split; [exact Hrun|]. rewrite Hthis.
  now apply dataSource_after_page.
Qed.

(** The notifications lag one page behind: on an uncontrolled table, when
    the widget reports page [p1] and then another page, the second
    [page-change] notification carries the rows of page [p1]. *)
Theorem second_notification_carries_first_page w props (p1 s : Z) (value2 : number)
    (info1 info2 : PageInfo.t) :
  hasPagination (this w) = true ->
  Js.ToBoolean (pagination (this w) ≫= TdPaginationProps.current) = false ->
  pageSize (this w) = Some (Num s) ->
  1 <= p1 -> 1 <= s -> s < Z.of_nat (length (data (this w))) ->
  exists w1 w2 calls1 calls2,
    renderPagination_onCurrentChange props (Num p1) info1 w = Ok tt w1
    /\ renderPagination_onCurrentChange props value2 info2 w1 = Ok tt w2
    /\ trace w2 =
         trace w ++ Emit "page-change" info1 (dataSource (this w)) :: calls1
           ++ Emit "page-change" info2
                (window (data (this w)) ((p1 - 1) * s) (p1 * s)) :: calls2
    /\ Forall (fun e => forall event i rows, e <> Emit event i rows) (calls1 ++ calls2)
    /\ defaultCurrent (this w2) = value2.
Proof.
  intros Hpag Hc Hs Hp1 Hs1 Hlen.
  destruct (onCurrentChange_run w props (Num p1) info1) as (w1 & Hrun1 & Hthis1 & Ht1).
  destruct (onCurrentChange_run w1 props value2 info2) as (w2 & Hrun2 & Hthis2 & Ht2).
  destruct (dataSource_after_page (this w) p1 s Hpag Hc Hs Hp1 Hs1 Hlen) as [_ Hslice].
  exists w1, w2. do 2 eexists.
  split; [exact Hrun1|]. split; [exact Hrun2|].
  split; [|split].
  - rewrite Ht2, Ht1, Hthis1, Hslice. rewrite <- app_assoc. reflexivity.
  - apply Forall_app. split;
      destruct (TdPaginationProps.onCurrentChange props);
      repeat constructor; discriminate.
  - now rewrite Hthis2.
Qed.

(** The widget's plain "change" event is only passed on to the host's
    [onChange]: it emits no [page-change] and leaves the instance alone. *)
Lemma onChange_forwards_only w props pageInfo :
  exists w',
    renderPagination_onChange props pageInfo w = Ok tt w'
    /\ this w' = this w
    /\ trace w' = trace w ++ match TdPaginationProps.onChange props with
                             | Some cb => [CallOnChange cb pageInfo]
                             | None => []
                             end.
Proof.
  unfold renderPagination_onChange.
  destruct (TdPaginationProps.onChange props) as [cb|]; run_method;
    eexists; (split; [reflexivity|]); simpl; (split; [reflexivity|]);
    [reflexivity | now rewrite app_nil_r].
Qed.

End Navigation.

(** ** Mounting, unmounting and the listeners on [window] *)

Section Lifecycle.

Context {DataType : Type}.
Implicit Types (w : World DataType).

Lemma allocated_next_absent w (type : string) (k : nat) :
  listeners_allocated w -> (next_fn w <= k)%nat -> (type, Closure k) ∉ listeners w.
Proof. intros Hw Hk Hin. apply Hw in Hin. lia. Qed.

Lemma allocated_grow w w' :
  listeners_allocated w -> listeners w' = listeners w -> (next_fn w <= next_fn w')%nat ->
  listeners_allocated w'.
Proof.
  intros Hw Hl Hn type id Hin. rewrite Hl in Hin. apply Hw in Hin. lia.
Qed.

(** [mounted] always returns, and it measures the scrollbar: afterwards
    [scrollBarWidth] is the probe's [offsetWidth - clientWidth].  It leaves
    the props, the pagination defaults, the affordance flags and the refs
    alone.  On a table without fixed columns it registers no listener,
    starts no timer and creates no function; on one with fixed columns it
    starts one timer of delay [0] and has one ["resize"] listener more at
    most. *)
Theorem mounted_outcome w :
  exists w1,
    mounted w = Ok tt w1
    /\ this w1 = set_scrollBarWidth (probe_offsetWidth w - probe_clientWidth w) (this w)
    /\ (hasFixedColumns (this w) = false ->
        listeners w1 = listeners w /\ timers w1 = timers w
        /\ functions w1 = functions w /\ next_fn w1 = next_fn w /\ trace w1 = trace w)
    /\ (hasFixedColumns (this w) = true ->
        timers w1 = timers w ++ [(Closure (next_fn w), 0)]
        /\ functions w1 !! next_fn w = Some CheckLater
        /\ (listeners w1 = listeners w
            \/ listeners w1 = listeners w ++ [("resize", Closure (S (next_fn w)))])).
Proof.
  unfold mounted, addWindowResizeEventListener, addEventListener, bind, get_this.
  destruct (hasFixedColumns (this w)) eqn:Hfixed; run_method.
  - destruct (decide (("resize", Closure (S (next_fn w))) ∈ listeners w)); simpl;
      eexists; (split; [reflexivity|]); simpl;
      (split; [reflexivity|]); (split; [discriminate|]); intros _;
      (split; [reflexivity|]);
      (split; [rewrite lookup_insert_ne by lia; apply lookup_insert_eq|]); auto.
  - eexists. split; [reflexivity|]. simpl. split; [reflexivity|].
    split; [auto | discriminate].
Qed.

(** On a page where every registered function object has been created
    before, [unmounted] removes no listener at all: the list on [window]
    is the same afterwards, and so is the instance. *)
Theorem unmounted_removes_nothing w :
  listeners_allocated w ->
  exists w2,
    unmounted w = Ok tt w2
    /\ listeners w2 = listeners w
    /\ this w2 = this w
    /\ listeners_allocated w2.
Proof.
  intros Hw. rewrite unmounted_run. eexists. split; [reflexivity|]. simpl.
  assert (E : remove_listener ("resize", Closure (next_fn w)) (listeners w) = listeners w).
  { apply remove_listener_absent. apply allocated_next_absent; [exact Hw | lia]. }
  split; [exact E|]. split; [reflexivity|].
  intros type id Hin. simpl in *. rewrite E in Hin. apply Hw in Hin. lia.
Qed.

Lemma mounted_allocated w :
  listeners_allocated w -> hasFixedColumns (this w) = true ->
  exists w1,
    mounted w = Ok tt w1
    /\ listeners w1 = listeners w ++ [("resize", Closure (S (next_fn w)))]
    /\ hasFixedColumns (this w1) = true
    /\ listeners_allocated w1.
Proof.
  intros Hw Hfixed.
  unfold mounted, addWindowResizeEventListener, addEventListener, bind, get_this.
  rewrite Hfixed. run_method.
  destruct (decide (("resize", Closure (S (next_fn w))) ∈ listeners w)) as [Hin|_].
  { exfalso. revert Hin. apply allocated_next_absent; [exact Hw | lia]. }
  simpl. eexists. split; [reflexivity|]. simpl. split; [reflexivity|].
  split; [exact Hfixed|].
  intros type id Hin. simpl in *. apply elem_of_app in Hin. destruct Hin as [Hin|Hin].
  - apply Hw in Hin. lia.
  - apply list_elem_of_singleton in Hin. injection Hin as _ ->. lia.
Qed.

Lemma unmounted_allocated w :
  listeners_allocated w ->
  exists w2,
    unmounted w = Ok tt w2
    /\ listeners w2 = listeners w
    /\ this w2 = this w
    /\ listeners_allocated w2.
Proof.
  intros Hw. rewrite unmounted_run. eexists. split; [reflexivity|]. simpl.
  assert (E : remove_listener ("resize", Closure (next_fn w)) (listeners w) = listeners w).
  { apply remove_listener_absent. apply allocated_next_absent; [exact Hw | lia]. }
  split; [exact E|]. split; [reflexivity|].
  intros type id Hin. simpl in *. rewrite E in Hin. apply Hw in Hin. lia.
Qed.

(** The listeners pile up: on a table with fixed columns, mounting and
    unmounting it [k] times leaves [k] more ["resize"] listeners on
    [window], after the ones that were there. *)
Theorem remount_leaks_listeners (k : nat) w :
  listeners_allocated w ->
  hasFixedColumns (this w) = true ->
  exists w' added,
    remount k w = Ok tt w'
    /\ listeners w' = listeners w ++ added
    /\ length added = k
    /\ Forall (fun entry => entry.1 = "resize") added.
Proof.
  revert w. induction k as [|k IH]; intros w Hw Hfixed.
  - exists w, []. repeat split; [now rewrite app_nil_r | constructor].
  - destruct (mounted_allocated w Hw Hfixed) as (w1 & Hm & Hl1 & Hf1 & Hw1).
    destruct (unmounted_allocated w1 Hw1) as (w2 & Hu & Hl2 & Ht2 & Hw2).
    assert (Hf2 : hasFixedColumns (this w2) = true) by now rewrite Ht2.
    destruct (IH w2 Hw2 Hf2) as (w' & added & Hr & Hl & Hlen & Hall).
    exists w', (("resize", Closure (S (next_fn w))) :: added).
    split; [|split; [|split]].
    + cbn [remount]. unfold bind at 1. rewrite Hm.
      unfold bind at 1. rewrite Hu. exact Hr.
    + rewrite Hl, Hl2, Hl1, <- app_assoc. reflexivity.
    + simpl. now rewrite Hlen.
    + constructor; [reflexivity | exact Hall].
Qed.

End Lifecycle.

Lemma page_of_allocated {DataType : Type} (t : BaseTable DataType) :
  listeners_allocated (page_of t).
Proof. intros type id Hin. simpl in Hin. now apply elem_of_nil in Hin. Qed.

Lemma unmounted_removes_nothing_witness :
  exists w2,
    unmounted (final_world (mounted
      (page_of (create seven_rows [Col "a" (Some FixedLeft) []] None None HeightAbsent))))
      = Ok tt w2
    /\ listeners w2 = [("resize", Closure 1)].
Proof.
  destruct (unmounted_removes_nothing
    (final_world (mounted
      (page_of (create seven_rows [Col "a" (Some FixedLeft) []] None None HeightAbsent)))))
    as (w2 & Hrun & Hl & _).
  - intros type id Hin. simpl in Hin.
    apply list_elem_of_singleton in Hin. injection Hin as _ ->. simpl. lia.
  - exists w2. split; [exact Hrun | exact Hl].
Defined.

Lemma remount_leaks_listeners_witness :
  exists w',
    remount 3 (page_of (create seven_rows [Col "a" (Some FixedLeft) []]
                          None None HeightAbsent)) = Ok tt w'
    /\ length (listeners w') = 3%nat.
Proof.
  destruct (remount_leaks_listeners 3
    (page_of (create seven_rows [Col "a" (Some FixedLeft) []] None None HeightAbsent))
    (page_of_allocated _) eq_refl) as (w' & added & Hrun & Hl & Hlen & _).
  exists w'. split; [exact Hrun|]. rewrite Hl. simpl. exact Hlen.
Defined.

Example remount_twice :
  listeners (final_world (remount 2
    (page_of (create seven_rows [Col "a" (Some FixedLeft) []] None None HeightAbsent))))
  = [("resize", Closure 1); ("resize", Closure 4)].
Proof. reflexivity. Qed.

Example mounted_plain_table :
  let w := page_of (create seven_rows [Col "a" None []] None None HeightAbsent) in
  listeners (final_world (mounted w)) = []
  /\ scrollBarWidth (this (final_world (mounted w))) = 15.
Proof. split; reflexivity. Qed.

(** ** Scrolling *)

Section Scrolling.

Context {DataType : Type}.
Implicit Types (w : World DataType) (el : HTMLElement) (e : ScrollEvent).

Lemma checkScrollable_run w el :
  refs (this w) !! (if fixedHeader (this w) then "scrollBody" else "tableContent") = Some el ->
  checkScrollableToLeftOrRight w = Ok tt (checked el w).
Proof.
  intros H. unfold checkScrollableToLeftOrRight, bind, get_this. now rewrite H.
Qed.

Lemma checkScrollable_throw w :
  refs (this w) !! (if fixedHeader (this w) then "scrollBody" else "tableContent") = None ->
  checkScrollableToLeftOrRight w = Throw TypeError w.
Proof.
  intros H. unfold checkScrollableToLeftOrRight, bind, get_this. now rewrite H.
Qed.

(** What the two flags say after a check on a container scrolled to a
    position [>= 0]: when the content is wider than the container at least
    one of them is set; none is set exactly when the container is at
    position 0 and the content fits; and a second check changes nothing. *)
Theorem checkScrollable_flags w el :
  refs (this w) !! (if fixedHeader (this w) then "scrollBody" else "tableContent") = Some el ->
  0 <= scrollLeft el ->
  exists w',
    checkScrollableToLeftOrRight w = Ok tt w'
    /\ (clientWidth el < scrollWidth el ->
        scrollableToLeft (this w') || scrollableToRight (this w') = true)
    /\ (scrollableToLeft (this w') = false /\ scrollableToRight (this w') = false <->
        scrollLeft el = 0 /\ scrollWidth el <= clientWidth el)
    /\ checkScrollableToLeftOrRight w' = Ok tt w'.
Proof.
  intros Href Hpos. exists (checked el w).
  split; [now apply checkScrollable_run|]. simpl.
  split; [|split].
  - intros Hwide.
    destruct (Z.ltb_spec 0 (scrollLeft el)); [reflexivity|].
    destruct (Z.ltb_spec (scrollLeft el + clientWidth el) (scrollWidth el)); [reflexivity | lia].
  - destruct (Z.ltb_spec 0 (scrollLeft el)),
      (Z.ltb_spec (scrollLeft el + clientWidth el) (scrollWidth el));
      split; intros [? ?]; try discriminate; try lia; split; (reflexivity || lia).
  - now rewrite (checkScrollable_run (checked el w) el Href).
Qed.

Lemma handleScroll_run w e (direction : SCROLL_DIRECTION.t) el :
  refs (this w) !! (if fixedHeader (this w) then "scrollBody" else "tableContent") = Some el ->
  handleScroll e direction w =
    Ok match direction with
       | SCROLL_DIRECTION.X => Some ("scroll-x", e)
       | SCROLL_DIRECTION.Y => Some ("scroll-y", e)
       | SCROLL_DIRECTION.UNKNOWN => None
       end (checked el w).
Proof.
  intros H. unfold handleScroll, bind. rewrite (checkScrollable_run w el H).
  now destruct direction.
Qed.

Lemma handleScroll_throw w e (direction : SCROLL_DIRECTION.t) :
  refs (this w) !! (if fixedHeader (this w) then "scrollBody" else "tableContent") = None ->
  handleScroll e direction w = Throw TypeError w.
Proof.
  intros H. unfold handleScroll, bind. now rewrite (checkScrollable_throw w H).
Qed.

(** [handleScroll] runs the check first: with the scroll container's ref
    absent it throws and hands no notification to the host; otherwise it
    sets the flags, logs nothing else, and notifies ["scroll-x"] or
    ["scroll-y"] with the event, or nothing at all for a direction that is
    not known. *)
Theorem handleScroll_outcome w e (direction : SCROLL_DIRECTION.t) :
  (refs (this w) !! (if fixedHeader (this w) then "scrollBody" else "tableContent") = None ->
   handleScroll e direction w = Throw TypeError w)
  /\ (forall el,
       refs (this w) !! (if fixedHeader (this w) then "scrollBody" else "tableContent")
         = Some el ->
       handleScroll e direction w =
         Ok match direction with
            | SCROLL_DIRECTION.X => Some ("scroll-x", e)
            | SCROLL_DIRECTION.Y => Some ("scroll-y", e)
            | SCROLL_DIRECTION.UNKNOWN => None
            end (checked el w)).
Proof.
  split.
  - apply handleScroll_throw.
  - intros el. apply handleScroll_run.
Qed.

Lemma scroll_to_range (z : Z) el :
  0 <= scrollWidth el - clientWidth el ->
  0 <= scrollLeft (scroll_to z el) <= scrollWidth el - clientWidth el.
Proof. intros H. simpl. lia. Qed.

(** The body's scroll handler of the split layout.  With the header's ref
    absent it throws before anything is changed.  With the header and the
    body present it moves the header to the target's [scrollLeft] (exactly
    that position when the header can scroll that far), leaves the body's
    ref as it is, and then behaves as [handleScroll].  With the header
    present and the body's ref absent it throws after the header has been
    moved. *)
Theorem header_follows_body w e (direction : SCROLL_DIRECTION.t) :
  fixedHeader (this w) = true ->
  (refs (this w) !! "scrollHeader" = None ->
   renderTableWithFixedHeader_handleScroll e direction w = Throw TypeError w)
  /\ (forall header body,
       refs (this w) !! "scrollHeader" = Some header ->
       refs (this w) !! "scrollBody" = Some body ->
       exists w' notification,
         renderTableWithFixedHeader_handleScroll e direction w = Ok notification w'
         /\ refs (this w') !! "scrollHeader" = Some (scroll_to (target_scrollLeft e) header)
         /\ (0 <= target_scrollLeft e <= scrollWidth header - clientWidth header ->
             (scroll_to (target_scrollLeft e) header).(scrollLeft) = target_scrollLeft e)
         /\ refs (this w') !! "scrollBody" = Some body
         /\ scrollableToLeft (this w') = (0 <? scrollLeft body)
         /\ scrollableToRight (this w') = (scrollLeft body + clientWidth body <? scrollWidth body)
         /\ (notification = None <-> direction = SCROLL_DIRECTION.UNKNOWN))
  /\ (forall header,
       refs (this w) !! "scrollHeader" = Some header ->
       refs (this w) !! "scrollBody" = None ->
       exists w',
         renderTableWithFixedHeader_handleScroll e direction w = Throw TypeError w'
         /\ refs (this w') !! "scrollHeader" = Some (scroll_to (target_scrollLeft e) header)).
Proof.
  intros Hfixed.
  unfold renderTableWithFixedHeader_handleScroll, bind, get_this.
  split; [|split].
  - intros H. now rewrite H.
  - intros header body Hh Hb. rewrite Hh. run_method.
    match goal with |- context [handleScroll e direction ?w1] => set (w1' := w1) end.
    assert (Hb' : refs (this w1') !!
              (if fixedHeader (this w1') then "scrollBody" else "tableContent") = Some body).
    { subst w1'. simpl. change (fixedHeader _) with (fixedHeader (this w)).
      rewrite Hfixed. now rewrite lookup_insert_ne. }
    rewrite (handleScroll_run w1' e direction body Hb').
    do 2 eexists. split; [reflexivity|]. subst w1'. simpl.
    split; [apply lookup_insert_eq|].
    split; [intros Hr; lia|].
    split; [now rewrite lookup_insert_ne|].
    split; [reflexivity|]. split; [reflexivity|].
    destruct direction; split; intros H; (reflexivity || discriminate).
  - intros header Hh Hb. rewrite Hh. run_method.
    match goal with |- context [handleScroll e direction ?w1] => set (w1' := w1) end.
    assert (Hb' : refs (this w1') !!
              (if fixedHeader (this w1') then "scrollBody" else "tableContent") = None).
    { subst w1'. simpl. change (fixedHeader _) with (fixedHeader (this w)).
      rewrite Hfixed. now rewrite lookup_insert_ne. }
    rewrite (handleScroll_throw w1' e direction Hb').
    eexists. split; [reflexivity|]. subst w1'. simpl. apply lookup_insert_eq.
Qed.

End Scrolling.

(** ** Class names *)

Section ClassNames.

Context {DataType : Type}.
Implicit Types (t : BaseTable DataType) (prefix x y : string) (classes : list string).

Lemma string_length_app (a b : string) :
  String.length (a +:+ b) = (String.length a + String.length b)%nat.
Proof.
  induction a as [|c a IH]; [reflexivity|].
  change (S (String.length (a +:+ b)) = S (String.length a + String.length b)).
  now rewrite IH.
Qed.

(** Two class names are different: either one of them is ["t-table"], and
    the prefix is empty or the lengths differ, or both start with the
    prefix and go on differently. *)
Ltac distinct_names :=
  let H := fresh "H" in
  intros H;
  first
    [ apply (inj (String.append _)) in H; cbv [String.append] in H; discriminate H
    | match type of H with
      | context [String.append ?p _] =>
          destruct p;
          [ cbv [String.append] in H; discriminate H
          | apply (f_equal String.length) in H;
            cbn [String.length] in H; rewrite ?string_length_app in H;
            cbn [String.length] in H; lia ]
      end ].

Lemma class_names_NoDup prefix : NoDup (class_names prefix).
Proof.
  unfold class_names.
  repeat (apply NoDup_cons; split;
          [rewrite ?not_elem_of_cons; repeat split;
           first [apply not_elem_of_nil | distinct_names] |]).
  apply NoDup_nil_2.
Qed.

Lemma push_if_app (c : bool) x classes :
  push_if c x classes = classes ++ (if c then [x] else []).
Proof. destruct c; [reflexivity | now rewrite app_nil_r]. Qed.

Lemma optional_sublist (c : bool) x : (if c then [x] else []) `sublist_of` [x].
Proof. destruct c; [reflexivity | apply sublist_nil_l]. Qed.

Lemma last_push_iff (names classes : list string) x (c : bool) :
  NoDup (names ++ [x]) -> classes `sublist_of` names ->
  (x ∈ push_if c x classes <-> c = true).
Proof.
  intros Hnd Hsub. rewrite push_if_app, elem_of_app.
  apply NoDup_app in Hnd. destruct Hnd as (_ & Hout & _).
  split.
  - intros [Hin | Hin].
    + exfalso. apply (Hout x); [now apply (elem_of_sublist classes) | apply list_elem_of_here].
    + destruct c; [reflexivity | now apply elem_of_nil in Hin].
  - intros ->. right. apply list_elem_of_here.
Qed.

(** [commonClass] up to its last two pushes: names picked in order among
    the first nine, ["t-table"] first. *)
Lemma commonClass_split prefix (style : Style.t) t :
  exists base,
    commonClass prefix style t =
      push_if (fixedHeader t) (prefix +:+ "-table__header--fixed")
        (push_if (hasFixedColumns t)
           (prefix +:+ "-table__cell--fixed " +:+ prefix +:+ "-table--has-fixed") base)
    /\ base `sublist_of` take 9 (class_names prefix)
    /\ (exists rest, base = "t-table" :: rest).
Proof.
  unfold commonClass. eexists. split; [reflexivity|].
  destruct style as [bordered stripe hover draggable size valign]. simpl.
  destruct bordered, stripe, hover, draggable;
    destruct (decide (size = Some "small")); try destruct (decide (size = Some "large"));
    destruct (decide (valign = Some "top")); try destruct (decide (valign = Some "bottom"));
    (split; [| eexists; reflexivity]); simpl;
    repeat first [apply sublist_nil_l | apply sublist_skip | apply sublist_cons].
Qed.

(** The class list mirrors the state of the table.  It starts with
    ["t-table"], whatever the prefix is; it holds no name twice; it holds
    the header class exactly when the header is fixed, and the
    fixed-columns entry exactly when a column is fixed; and its names come,
    in order, from the eleven names the component knows. *)
Theorem commonClass_reflects_state prefix (style : Style.t) t :
  (exists rest, commonClass prefix style t = "t-table" :: rest)
  /\ NoDup (commonClass prefix style t)
  /\ (prefix +:+ "-table__header--fixed" ∈ commonClass prefix style t
      <-> fixedHeader t = true)
  /\ (prefix +:+ "-table__cell--fixed " +:+ prefix +:+ "-table--has-fixed"
        ∈ commonClass prefix style t
      <-> hasFixedColumns t = true)
  /\ commonClass prefix style t `sublist_of` class_names prefix.
Proof.
  destruct (commonClass_split prefix style t) as (base & -> & Hbase & rest & ->).
  pose proof (class_names_NoDup prefix) as Hnd.
  change (class_names prefix) with
    ((take 9 (class_names prefix)
      ++ [prefix +:+ "-table__cell--fixed " +:+ prefix +:+ "-table--has-fixed"])
     ++ [prefix +:+ "-table__header--fixed"]) in Hnd |- *.
  assert (Hsub9 : push_if (hasFixedColumns t)
            (prefix +:+ "-table__cell--fixed " +:+ prefix +:+ "-table--has-fixed")
            ("t-table" :: rest)
          `sublist_of` take 9 (class_names prefix)
            ++ [prefix +:+ "-table__cell--fixed " +:+ prefix +:+ "-table--has-fixed"]).
  { rewrite push_if_app. apply sublist_app; [exact Hbase | apply optional_sublist]. }
  assert (Hsub : push_if (fixedHeader t) (prefix +:+ "-table__header--fixed")
            (push_if (hasFixedColumns t)
               (prefix +:+ "-table__cell--fixed " +:+ prefix +:+ "-table--has-fixed")
               ("t-table" :: rest))
          `sublist_of` (take 9 (class_names prefix)
            ++ [prefix +:+ "-table__cell--fixed " +:+ prefix +:+ "-table--has-fixed"])
            ++ [prefix +:+ "-table__header--fixed"]).
  { rewrite (push_if_app (fixedHeader t)).
    apply sublist_app; [exact Hsub9 | apply optional_sublist]. }
  split; [|split; [|split; [|split]]].
  - rewrite !push_if_app. simpl. eexists. reflexivity.
  - exact (sublist_NoDup _ _ Hnd Hsub).
  - exact (last_push_iff _ _ _ _ Hnd Hsub9).
  - rewrite (push_if_app (fixedHeader t)), elem_of_app.
    pose proof (proj1 (NoDup_app _ _) Hnd) as (Hnd9 & Hout & _).
    rewrite <- (last_push_iff _ _ _ (hasFixedColumns t) Hnd9 Hbase).
    split; [|now left].
    intros [Hin | Hin]; [exact Hin|].
    exfalso. apply (Hout (prefix +:+ "-table__cell--fixed " +:+ prefix +:+ "-table--has-fixed")).
    + apply elem_of_app. right. apply list_elem_of_here.
    + destruct (fixedHeader t); [exact Hin | now apply elem_of_nil in Hin].
  - exact Hsub.
Qed.

End ClassNames.

Example commonClass_plain :
  commonClass "t" (Style.Make false false false false None None)
    (create seven_rows [] None None HeightAbsent) = ["t-table"].
Proof. reflexivity. Qed.

Example commonClass_full :
  commonClass "td" (Style.Make true true true true (Some "small") (Some "bottom"))
    (create seven_rows [Col "a" (Some FixedRight) []] None None (HeightString "200px"))
  = ["t-table"; "td-table--bordered"; "td-table--striped"; "td-table--hoverable";
     "td-table__row--draggable"; "td-size-s"; "td-table-valign__bottom";
     "td-table__cell--fixed td-table--has-fixed"; "td-table__header--fixed"].
Proof. reflexivity. Qed.

(** ** Heights written as strings *)

Section HeightStrings.

Context {DataType : Type}.
Implicit Types (t : BaseTable DataType) (s u : string) (x d : N).

Lemma digit_of_pretty d :
  (d < 10)%N ->
  Js.digit_of (pretty_N_char d) = Some (Z.of_N d)
  /\ Js.is_white_space (pretty_N_char d) = false
  /\ pretty_N_char d <> "-"%char /\ pretty_N_char d <> "+"%char.
Proof.
  intros Hd.
  assert (d = 0 \/ d = 1 \/ d = 2 \/ d = 3 \/ d = 4 \/ d = 5 \/ d = 6 \/ d = 7
          \/ d = 8 \/ d = 9)%N as H by lia.
  repeat (destruct H as [-> | H]); try subst d; repeat split; discriminate.
Qed.

Lemma digits_started s (a : Z) : exists b, Js.digits s (Some a) = Some b.
Proof.
  revert a. induction s as [|c s IH]; intros a; simpl; [eauto|].
  destruct (Js.digit_of c); [apply IH | eauto].
Qed.

Lemma digits_no_leading_digit u (a : Z) :
  Js.digits u None = None -> Js.digits u (Some a) = Some a.
Proof.
  destruct u as [|c u]; simpl; [reflexivity|].
  destruct (Js.digit_of c) as [d|]; [|reflexivity].
  intros H. destruct (digits_started u (10 * 0 + d)) as [b Hb]. congruence.
Qed.

Lemma pretty_N_go_app x s u : pretty_N_go x s +:+ u = pretty_N_go x (s +:+ u).
Proof.
  revert s. induction (N.lt_wf_0 x) as [x _ IH]; intros s.
  destruct (decide (0 < x)%N) as [Hx|Hx].
  - rewrite (pretty_N_go_step x s), (pretty_N_go_step x (s +:+ u)) by exact Hx.
    rewrite IH by (apply N.div_lt; lia). reflexivity.
  - replace x with 0%N by lia. reflexivity.
Qed.

(** Reading back the digits [pretty_N_go] has written in front of [s]. *)
Lemma digits_pretty_N_go x :
  (0 < x)%N ->
  (exists k : Z, 0 <= k /\ forall s acc,
     Js.digits (pretty_N_go x s) acc
     = Js.digits s (Some (default 0 acc * 10 ^ k + Z.of_N x)))
  /\ (forall s, exists d r, (d < 10)%N /\ pretty_N_go x s = String (pretty_N_char d) r).
Proof.
  induction (N.lt_wf_0 x) as [x _ IH]; intros Hx.
  assert (Hmod : (x `mod` 10 < 10)%N) by (apply N.mod_lt; lia).
  assert (Hdiv : x = (10 * (x `div` 10) + x `mod` 10)%N) by (apply N.div_mod; lia).
  destruct (digit_of_pretty _ Hmod) as (Hdigit & _).
  destruct (decide (0 < x `div` 10)%N) as [Hq|Hq].
  - destruct (IH (x `div` 10)%N ltac:(apply N.div_lt; lia) Hq) as ((k & Hk & Hread) & Hhead).
    split.
    + exists (k + 1). split; [lia|]. intros s acc.
      rewrite pretty_N_go_step by exact Hx. rewrite Hread. simpl. rewrite Hdigit.
      f_equal. f_equal. rewrite Z.pow_add_r by lia. simpl. lia.
    + intros s. rewrite pretty_N_go_step by exact Hx. apply Hhead.
  - assert (Hq0 : (x `div` 10 = 0)%N) by lia.
    split.
    + exists 1. split; [lia|]. intros s acc.
      rewrite pretty_N_go_step by exact Hx. rewrite Hq0, pretty_N_go_0.
      simpl. rewrite Hdigit. f_equal. f_equal. lia.
    + intros s. exists (x `mod` 10)%N. eexists. split; [exact Hmod|].
      rewrite pretty_N_go_step by exact Hx. now rewrite Hq0, pretty_N_go_0.
Qed.

Lemma parseInt10_pretty (n : N) u :
  Js.digits u None = None -> Js.parseInt10 (pretty n +:+ u) = Num (Z.of_N n).
Proof.
  intros Hu. unfold pretty, pretty_N.
  destruct (decide (n = 0%N)) as [->|Hn].
  - change ("0" +:+ u) with (String "0" u). unfold Js.parseInt10. simpl.
    now rewrite (digits_no_leading_digit u _ Hu).
  - rewrite pretty_N_go_app. change ("" +:+ u) with u.
    destruct (digits_pretty_N_go n ltac:(lia)) as ((k & _ & Hread) & Hhead).
    destruct (Hhead u) as (d & r & Hd & Hr).
    destruct (digit_of_pretty d Hd) as (_ & Hws & Hminus & Hplus).
    unfold Js.parseInt10.
    assert (Htrim : Js.trim_start (pretty_N_go n u) = pretty_N_go n u).
    { rewrite Hr. simpl. now rewrite Hws. }
    rewrite Htrim.
    assert (Hsign :
      match pretty_N_go n u with
      | String "-"%char r => (-1, r)
      | String "+"%char r => (1, r)
      | _ => (1, pretty_N_go n u)
      end = (1, pretty_N_go n u)).
    { rewrite Hr.
      assert (d = 0 \/ d = 1 \/ d = 2 \/ d = 3 \/ d = 4 \/ d = 5 \/ d = 6 \/ d = 7
              \/ d = 8 \/ d = 9)%N as H by lia.
      repeat (destruct H as [-> | H]); try subst d; reflexivity. }
    rewrite Hsign. rewrite Hread. simpl.
    rewrite (digits_no_leading_digit u _ Hu). f_equal. lia.
Qed.

(** A height written as a string of decimal digits, with or without a
    unit behind it (["300"], ["300px"]), gives the table height and the
    layout that the number itself gives, for the numbers up to [2^53],
    which [parseInt] reads without rounding. *)
Theorem height_string_as_number t (n : N) u :
  (n <= 2 ^ 53)%N ->
  height t = HeightString (pretty n +:+ u) ->
  Js.digits u None = None ->
  tableHeight t = Num (Z.of_N n)
  /\ forall t' : BaseTable DataType,
       height t' = HeightNumber (Num (Z.of_N n)) ->
       tableHeight t' = tableHeight t /\ layoutMode t' = layoutMode t.
Proof.
  intros _ Ht Hu.
  assert (E : tableHeight t = Num (Z.of_N n)).
  { unfold tableHeight. rewrite Ht. now apply parseInt10_pretty. }
  split; [exact E|]. intros t' Ht'.
  assert (E' : tableHeight t' = Num (Z.of_N n)).
  { unfold tableHeight. rewrite Ht'. simpl.
    destruct (Z.eqb_spec (Z.of_N n) 0) as [->|]; reflexivity. }
  split; [congruence|]. unfold layoutMode, fixedHeader. now rewrite E, E'.
Qed.

End HeightStrings.

Lemma height_string_as_number_witness :
  tableHeight (create seven_rows [] None None (HeightString "300px")) = Num 300.
Proof.
  refine (proj1 (height_string_as_number
    (create seven_rows [] None None (HeightString "300px")) 300 "px" _ eq_refl eq_refl)).
  vm_compute. discriminate.
Defined.

(** ** The properties above on sample tables *)

Lemma controlled_page_change_keeps_slice_witness :
  let props := paging (Some (Num 1)) None (Some (Num 3)) None in
  let w := page_of (create seven_rows [] (Some props) None HeightAbsent) in
  exists w',
    renderPagination_onCurrentChange props (Num 2) (PageInfo.Make (Num 2) (Num 1) (Num 3)) w
      = Ok tt w'
    /\ dataSource (this w') = [10; 20; 30].
Proof.
  cbv zeta.
  destruct (proj1 (controlled_page_change_keeps_slice
    (page_of (create seven_rows [] (Some (paging (Some (Num 1)) None (Some (Num 3)) None))
                None HeightAbsent))
    (paging (Some (Num 1)) None (Some (Num 3)) None) (Num 2)
    (PageInfo.Make (Num 2) (Num 1) (Num 3))) eq_refl) as (w' & Hrun & _ & _ & Hslice).
  exists w'. split; [exact Hrun|]. rewrite Hslice. reflexivity.
Defined.

Lemma uncontrolled_page_change_moves_slice_witness :
  let props := paging None (Some (Num 1)) (Some (Num 3)) None in
  let w := page_of (create seven_rows [] (Some props) None HeightAbsent) in
  exists w',
    renderPagination_onCurrentChange props (Num 2) (PageInfo.Make (Num 2) (Num 1) (Num 3)) w
      = Ok tt w'
    /\ dataSource (this w') = [40; 50; 60].
Proof.
  cbv zeta.
  destruct (uncontrolled_page_change_moves_slice
    (page_of (create seven_rows [] (Some (paging None (Some (Num 1)) (Some (Num 3)) None))
                None HeightAbsent))
    (paging None (Some (Num 1)) (Some (Num 3)) None) 2 3
    (PageInfo.Make (Num 2) (Num 1) (Num 3)))
    as (w' & Hrun & _ & Hslice);
    [reflexivity | reflexivity | reflexivity | lia | lia | simpl; lia |].
  exists w'. split; [exact Hrun|]. rewrite Hslice. reflexivity.
Defined.

Lemma second_notification_carries_first_page_witness :
  let props := paging None (Some (Num 1)) (Some (Num 3)) None in
  let w := page_of (create seven_rows [] (Some props) None HeightAbsent) in
  let to2 := PageInfo.Make (Num 2) (Num 1) (Num 3) in
  let to3 := PageInfo.Make (Num 3) (Num 2) (Num 3) in
  exists w1 w2,
    renderPagination_onCurrentChange props (Num 2) to2 w = Ok tt w1
    /\ renderPagination_onCurrentChange props (Num 3) to3 w1 = Ok tt w2
    /\ trace w2 = [Emit "page-change" to2 [10; 20; 30]; Emit "page-change" to3 [40; 50; 60]].
Proof.
  cbv zeta.
  destruct (second_notification_carries_first_page
    (page_of (create seven_rows [] (Some (paging None (Some (Num 1)) (Some (Num 3)) None))
                None HeightAbsent))
    (paging None (Some (Num 1)) (Some (Num 3)) None) 2 3 (Num 3)
    (PageInfo.Make (Num 2) (Num 1) (Num 3)) (PageInfo.Make (Num 3) (Num 2) (Num 3)))
    as (w1 & w2 & calls1 & calls2 & Hrun1 & Hrun2 & _);
    [reflexivity | reflexivity | reflexivity | lia | lia | simpl; lia |].
  exists w1, w2. split; [exact Hrun1|]. split; [exact Hrun2|].
  vm_compute in Hrun1. injection Hrun1 as <-.
  vm_compute in Hrun2. injection Hrun2 as <-.
  reflexivity.
Defined.

Lemma checkScrollable_flags_witness :
  let el := {| scrollLeft := 0; scrollWidth := 300; clientWidth := 100 |} in
  let w := page_of (rendered "tableContent" el
                      (create seven_rows [] None None HeightAbsent)) in
  exists w',
    checkScrollableToLeftOrRight w = Ok tt w'
    /\ scrollableToLeft (this w') || scrollableToRight (this w') = true.
Proof.
  cbv zeta.
  destruct (checkScrollable_flags
    (page_of (rendered "tableContent"
                {| scrollLeft := 0; scrollWidth := 300; clientWidth := 100 |}
                (create seven_rows [] None None HeightAbsent)))
    {| scrollLeft := 0; scrollWidth := 300; clientWidth := 100 |})
    as (w' & Hrun & Hwide & _); [reflexivity | simpl; lia |].
  exists w'. split; [exact Hrun|]. apply Hwide. simpl. lia.
Defined.

Lemma header_follows_body_witness :
  let header := {| scrollLeft := 0; scrollWidth := 300; clientWidth := 100 |} in
  let body := {| scrollLeft := 50; scrollWidth := 300; clientWidth := 100 |} in
  let w := page_of (rendered "scrollHeader" header (rendered "scrollBody" body
                      (create seven_rows [] None None (HeightNumber (Num 120))))) in
  exists w' notification,
    renderTableWithFixedHeader_handleScroll
      {| target_scrollLeft := 50; target_scrollTop := 0 |} SCROLL_DIRECTION.X w
      = Ok notification w'
    /\ scrollLeft <$> refs (this w') !! "scrollHeader" = Some 50.
Proof.
  cbv zeta.
  destruct (proj1 (proj2 (header_follows_body
    (page_of (rendered "scrollHeader"
                {| scrollLeft := 0; scrollWidth := 300; clientWidth := 100 |}
                (rendered "scrollBody"
                   {| scrollLeft := 50; scrollWidth := 300; clientWidth := 100 |}
                   (create seven_rows [] None None (HeightNumber (Num 120))))))
    {| target_scrollLeft := 50; target_scrollTop := 0 |} SCROLL_DIRECTION.X eq_refl))
    {| scrollLeft := 0; scrollWidth := 300; clientWidth := 100 |}
    {| scrollLeft := 50; scrollWidth := 300; clientWidth := 100 |} eq_refl eq_refl)
    as (w' & notification & Hrun & Hheader & _).
  exists w', notification. split; [exact Hrun|]. rewrite Hheader. reflexivity.
Defined.

Example header_stops_at_its_range :
  let header := {| scrollLeft := 0; scrollWidth := 120; clientWidth := 100 |} in
  scrollLeft (scroll_to 50 header) = 20.
Proof. reflexivity. Qed.
